(** * Paper service: filter compiler, update pipeline, rescrape guard

    A shallow embedding of [src/app/renderer/services/paper-service.ts]
    (classes [PaperFilterOptions] and [PaperService]) together with the
    properties the specification states about them.

    Strings are [String.string]; a character stands for one UTF-16 code
    unit in the Latin-1 range.  Asynchronous collaborators are modelled by
    explicit state passing over an abstract world, with a trace of the
    collaborator calls that were made. *)

From Stdlib Require Import Bool Arith ZArith List Ascii String Lia.
From Stdlib Require Import DecimalString.
Import ListNotations.

Local Open Scope string_scope.
Local Open Scope list_scope.
Local Open Scope nat_scope.

(* ================================================================= *)
(** ** JavaScript string primitives used by the service *)

Module JSString.

Definition code (c : ascii) : nat := nat_of_ascii c.

(** White space of [String.prototype.trim] and of the regex class [\s],
    restricted to the code units below 256. *)
Definition is_space (c : ascii) : bool :=
  let n := code c in
  ((9 <=? n) && (n <=? 13)) || (n =? 32) || (n =? 160).

(** The regex class [\d]. *)
Definition is_digit (c : ascii) : bool :=
  let n := code c in (48 <=? n) && (n <=? 57).

(** [s.slice(n)] for [0 <= n]. *)
Fixpoint drop (n : nat) (s : string) : string :=
  match n, s with
  | O, _ => s
  | S _, EmptyString => EmptyString
  | S k, String _ r => drop k r
  end.

(** [s.slice(0, n)] for [0 <= n]. *)
Definition take (n : nat) (s : string) : string := substring 0 n s.

(** [s.includes(p)] *)
Fixpoint includes (p s : string) : bool :=
  prefix p s ||
  match s with
  | EmptyString => false
  | String _ r => includes p r
  end.

(** [s.endsWith(p)] *)
Definition endsWith (p s : string) : bool :=
  (String.length p <=? String.length s) &&
  (drop (String.length s - String.length p) s =? p)%string.

(** [s.replaceAll(pat, rep)] for a string pattern: the occurrences are
    found left to right and do not overlap.  [skip] counts the characters
    of an occurrence that are still to be consumed.  The replacement
    strings of the service hold no [$], so no replacement pattern is
    expanded. *)
Fixpoint replaceAll_from (skip : nat) (pat rep s : string) : string :=
  match s with
  | EmptyString => EmptyString
  | String c r =>
      match skip with
      | S k => replaceAll_from k pat rep r
      | O =>
          if prefix pat s
          then (rep ++ replaceAll_from (String.length pat - 1) pat rep r)%string
          else String c (replaceAll_from 0 pat rep r)
      end
  end.

Fixpoint intersperse_after (rep s : string) : string :=
  match s with
  | EmptyString => EmptyString
  | String c r => String c (rep ++ intersperse_after rep r)%string
  end.

Definition replaceAll (pat rep s : string) : string :=
  match pat with
  | EmptyString => (rep ++ intersperse_after rep s)%string
  | _ => replaceAll_from 0 pat rep s
  end.

(** [s.replace(pat, rep)] for a string pattern: first occurrence only. *)
Fixpoint replaceFirst (pat rep s : string) : string :=
  if prefix pat s then (rep ++ drop (String.length pat) s)%string
  else match s with
       | EmptyString => EmptyString
       | String c r => String c (replaceFirst pat rep r)
       end.

Fixpoint trimStart (s : string) : string :=
  match s with
  | String c r => if is_space c then trimStart r else s
  | EmptyString => EmptyString
  end.

(** Drops the trailing white space: a character is kept when something
    that is kept follows it or it is not white space itself. *)
Fixpoint trimEnd (s : string) : string :=
  match s with
  | EmptyString => EmptyString
  | String c r =>
      match trimEnd r with
      | EmptyString => if is_space c then EmptyString else String c EmptyString
      | r' => String c r'
      end
  end.

(** [s.trim()] *)
Definition trim (s : string) : string := trimEnd (trimStart s).

(** [s.split(sep)] for a one-character separator; [cur] is the piece
    being read, reversed. *)
Fixpoint rev_string (acc s : string) : string :=
  match s with
  | EmptyString => acc
  | String c r => rev_string (String c acc) r
  end.

Fixpoint split_from (sep : ascii) (cur s : string) : list string :=
  match s with
  | EmptyString => [rev_string EmptyString cur]
  | String c r =>
      if Ascii.eqb c sep
      then rev_string EmptyString cur :: split_from sep EmptyString r
      else split_from sep (String c cur) r
  end.

Definition split (sep : ascii) (s : string) : list string :=
  split_from sep EmptyString s.

(** [xs.join(sep)] *)
Definition join (sep : string) (xs : list string) : string :=
  String.concat sep xs.

(** Truthiness of a string: non-empty. *)
Definition truthy (s : string) : bool :=
  match s with EmptyString => false | _ => true end.

(** [parseInt(s)] on a string of decimal digits. *)
Fixpoint parse_digits (acc : Z) (s : string) : Z :=
  match s with
  | String c r =>
      if is_digit c
      then parse_digits (10 * acc + Z.of_nat (code c - 48)) r
      else acc
  | EmptyString => acc
  end.

Definition parseInt (s : string) : Z := parse_digits 0 s.

(** Decimal rendering of an integer, as a template literal renders a
    number that is a safe integer. *)
Definition of_Z (z : Z) : string := NilZero.string_of_int (Z.to_int z).

(** [String(n).padStart(w, "0")] for [0 <= n]. *)
Fixpoint zeros (n : nat) : string :=
  match n with O => EmptyString | S k => String "0" (zeros k) end.

Definition pad0 (w : nat) (z : Z) : string :=
  let s := of_Z z in (zeros (w - String.length s) ++ s)%string.

End JSString.

(* ================================================================= *)
(** ** Regular expressions

    A backtracking matcher with the semantics the two patterns of the
    service rely on: alternatives are tried in order, a star is greedy and
    gives characters back, an iteration of a star must consume input. *)

Module Regex.

Inductive re : Type :=
| Eps : re
| Chr : ascii -> re
| Cls : (ascii -> bool) -> re
| Cat : re -> re -> re
| Alt : re -> re -> re
| Star : re -> re.

Definition Plus (r : re) : re := Cat r (Star r).

Fixpoint Str (s : string) : re :=
  match s with
  | EmptyString => Eps
  | String c r => Cat (Chr c) (Str r)
  end.

(** [run r s k]: match [r] at the start of [s], then continue with [k] on
    the rest; the result is what is left of the input after the whole
    match. *)
Fixpoint run (r : re) (s : string) (k : string -> option string)
  {struct r} : option string :=
  match r with
  | Eps => k s
  | Chr c =>
      match s with
      | String d rest => if Ascii.eqb c d then k rest else None
      | EmptyString => None
      end
  | Cls p =>
      match s with
      | String d rest => if p d then k rest else None
      | EmptyString => None
      end
  | Cat r1 r2 => run r1 s (fun s1 => run r2 s1 k)
  | Alt r1 r2 =>
      match run r1 s k with
      | Some out => Some out
      | None => run r2 s k
      end
  | Star r1 =>
      (fix loop (fuel : nat) (s0 : string) {struct fuel} : option string :=
         match fuel with
         | O => k s0
         | S f =>
             match run r1 s0 (fun s1 =>
                      if String.length s1 <? String.length s0
                      then loop f s1 else None) with
             | Some out => Some out
             | None => k s0
             end
         end) (String.length s) s
  end.

(** Length of the match of [r] at the start of [s], if there is one. *)
Definition match_at (r : re) (s : string) : option nat :=
  match run r s (fun rest => Some rest) with
  | Some rest => Some (String.length s - String.length rest)
  | None => None
  end.

(** [s.match(/r/g)]: the matched substrings, left to right, without
    overlap; [None] is JavaScript's [null] (no match at all). *)
Fixpoint matches_from (skip : nat) (r : re) (s : string) : list string :=
  match s with
  | EmptyString =>
      match skip, match_at r EmptyString with
      | O, Some _ => [EmptyString]
      | _, _ => []
      end
  | String _ rest =>
      match skip with
      | S k => matches_from k r rest
      | O =>
          match match_at r s with
          | Some n => JSString.take n s :: matches_from (n - 1) r rest
          | None => matches_from 0 r rest
          end
      end
  end.

Definition matchAll (r : re) (s : string) : option (list string) :=
  match matches_from 0 r s with
  | [] => None
  | ms => Some ms
  end.

(** [s.replace(/r/g, rep)] for a replacement string without [$]. *)
Fixpoint replace_from (skip : nat) (r : re) (rep s : string) : string :=
  match s with
  | EmptyString =>
      match skip, match_at r EmptyString with
      | O, Some _ => rep
      | _, _ => EmptyString
      end
  | String c rest =>
      match skip with
      | S k => replace_from k r rep rest
      | O =>
          match match_at r s with
          | Some O => (rep ++ String c (replace_from 0 r rep rest))%string
          | Some (S n) => (rep ++ replace_from n r rep rest)%string
          | None => String c (replace_from 0 r rep rest)
          end
      end
  end.

Definition replaceG (r : re) (rep s : string) : string :=
  replace_from 0 r rep s.

End Regex.

(* ================================================================= *)
(** ** Dates

    A [Date] is its time value, milliseconds since the epoch.  The host's
    time zone is taken to have one fixed offset from UTC between the two
    instants involved, so that [setDate(getDate() - n)] moves the time
    value by exactly [n] days. *)

Module JSDate.

Local Open Scope Z_scope.

Definition msPerDay : Z := 86400000.

(** Largest magnitude of a valid time value (ECMAScript TimeClip). *)
Definition maxTime : Z := 8640000000000000.

(** [date.setDate(date.getDate() - n)]; [None] is the invalid date. *)
Definition minusDays (tv n : Z) : option Z :=
  let t := tv - n * msPerDay in
  if Z.abs t <=? maxTime then Some t else None.

(** Year, month and day of a day number counted from 1970-01-01. *)
Definition civil (day : Z) : Z * Z * Z :=
  let z := day + 719468 in
  let era := z / 146097 in
  let doe := z - era * 146097 in
  let yoe := (doe - doe / 1460 + doe / 36524 - doe / 146096) / 365 in
  let doy := doe - (365 * yoe + yoe / 4 - yoe / 100) in
  let mp := (5 * doy + 2) / 153 in
  let d := doy - (153 * mp + 2) / 5 + 1 in
  let m := if mp <? 10 then mp + 3 else mp - 9 in
  let y := yoe + era * 400 + (if m <=? 2 then 1 else 0) in
  (y, m, d).

Definition isoYear (y : Z) : string :=
  if (0 <=? y) && (y <=? 9999) then JSString.pad0 4 y
  else
    let sign := if y <? 0 then "-" else "+" in
    (sign ++ JSString.pad0 6 (Z.abs y))%string.

(** [date.toISOString()] of a valid date. *)
Definition toISOString (tv : Z) : string :=
  let day := tv / msPerDay in
  let ms := tv mod msPerDay in
  let '(y, m, d) := civil day in
  let hh := JSString.pad0 2 (ms / 3600000) in
  let mm := JSString.pad0 2 ((ms / 60000) mod 60) in
  let ss := JSString.pad0 2 ((ms / 1000) mod 60) in
  let sss := JSString.pad0 3 (ms mod 1000) in
  (isoYear y ++ "-" ++ JSString.pad0 2 m ++ "-" ++ JSString.pad0 2 d
     ++ "T" ++ hh ++ ":" ++ mm ++ ":" ++ ss ++ "." ++ sss ++ "Z")%string.

End JSDate.

(* ================================================================= *)
(** ** PaperFilterOptions: the structured-query compiler *)

Module PaperFilterOptions.

Import JSString Regex.

Inductive SearchMode : Type := general | fulltext | advanced.

(** The fields of the class; [None] is JavaScript's [undefined]. *)
Record t : Type := mk {
  filters : list string;
  search : option string;
  searchMode : option SearchMode;
  flaged : option bool;
  tag : option string;
  folder : option string;
  limit : option Z
}.

(** [Partial<IPaperFilterOptions>]: a key is absent ([None]) or present
    with a value that may itself be [undefined]. *)
Record Partial : Type := mkPartial {
  p_search : option (option string);
  p_searchMode : option (option SearchMode);
  p_flaged : option (option bool);
  p_tag : option (option string);
  p_folder : option (option string);
  p_limit : option (option Z)
}.

Definition noOptions : Partial := mkPartial None None None None None None.

(** The object before the constructor body runs. *)
Definition fresh : t := mk [] None None None None None None.

Definition pick {A : Type} (new : option A) (old : A) : A :=
  match new with Some v => v | None => old end.

(** [for (const key in options) this[key] = options[key]] *)
Definition assign (options : Partial) (this : t) : t :=
  mk (filters this)
     (pick (p_search options) (search this))
     (pick (p_searchMode options) (searchMode this))
     (pick (p_flaged options) (flaged this))
     (pick (p_tag options) (tag this))
     (pick (p_folder options) (folder this))
     (pick (p_limit options) (limit this)).

Definition dq : string := String (ascii_of_nat 34) EmptyString.

(** [/\[\d+ DAYS\]/g] *)
Definition dateRegex : re :=
  Cat (Chr "[") (Cat (Plus (Cls is_digit)) (Str " DAYS]")).

(** [/(<|<=|>|>=)\s*\[\d+ DAYS\]/g] *)
Definition compareDateRegex : re :=
  Cat (Alt (Chr "<") (Alt (Str "<=") (Alt (Chr ">") (Str ">="))))
      (Cat (Star (Cls is_space)) dateRegex).

(** One round of the loop over [compareDateMatch]. *)
Definition invertMatch (formatedSearch match_ : string) : string :=
  if includes "<" formatedSearch
  then replaceAll match_ (replaceAll "<" ">" match_) formatedSearch
  else if includes ">" formatedSearch
  then replaceAll match_ (replaceAll ">" "<" match_) formatedSearch
  else formatedSearch.

(** "Replace comparison operators for 'addTime'" *)
Definition invertComparisons (formatedSearch : string) : string :=
  match matchAll compareDateRegex formatedSearch with
  | Some compareDateMatch =>
      fold_left invertMatch compareDateMatch formatedSearch
  | None => formatedSearch
  end.

(** [m.slice(1, -6)] *)
Definition daysOf (m : string) : Z :=
  parseInt (substring 1 (String.length m - 6 - 1) m).

(** [date.toISOString().slice(0, -5).replace("T", "@")] *)
Definition dateLiteral (tv : Z) : string :=
  let iso := JSDate.toISOString tv in
  replaceFirst "T" "@" (take (String.length iso - 5) iso).

(** "Replace Date string"; [None]: [toISOString] threw a [RangeError]
    on an invalid date. *)
Definition expandDates (now : Z) (formatedSearch : string) : option string :=
  match matchAll dateRegex formatedSearch with
  | Some (first :: _) =>
      match JSDate.minusDays now (daysOf first) with
      | Some tv => Some (replaceG dateRegex (dateLiteral tv) formatedSearch)
      | None => None
      end
  | _ => Some formatedSearch
  end.

Definition generalClause (formatedSearch : string) : string :=
  let fuzzy := ("*" ++ join "*" (split " " (trim formatedSearch)) ++ "*")%string in
  ("(title LIKE[c] " ++ dq ++ fuzzy ++ dq
     ++ " OR authors LIKE[c] " ++ dq ++ fuzzy ++ dq
     ++ " OR publication LIKE[c] " ++ dq ++ fuzzy ++ dq
     ++ " OR note LIKE[c] " ++ dq ++ fuzzy ++ dq ++ ")")%string.

Definition fulltextClause (formatedSearch : string) : string :=
  ("(fulltext contains[c] " ++ dq ++ formatedSearch ++ dq ++ ")")%string.

Definition tagClause (name : string) : string :=
  ("(ANY tags.name == " ++ dq ++ name ++ dq ++ ")")%string.

Definition folderClause (name : string) : string :=
  ("(ANY folders.name == " ++ dq ++ name ++ dq ++ ")")%string.

Definition truthyStr (s : option string) : option string :=
  match s with
  | Some v => if truthy v then Some v else None
  | None => None
  end.

Definition clauseIf (s : option string) (f : string -> string) : list string :=
  match truthyStr s with Some v => [f v] | None => [] end.

Section Update.

(** [formatString({str, removeNewline: true, trimWhite: true})] of
    [@/base/string], whose source is not part of this file's input. *)
Variable formatString : string -> string.

(** The clause pushed for the search field; [None]: an exception. *)
Definition searchClauses (now : Z) (this : t) : option (list string) :=
  match truthyStr (search this) with
  | None => Some []
  | Some s =>
      let formatedSearch := formatString s in
      match searchMode this with
      | None | Some general => Some [generalClause formatedSearch]
      | Some advanced =>
          match expandDates now (invertComparisons formatedSearch) with
          | Some compiled => Some [compiled]
          | None => None
          end
      | Some fulltext => Some [fulltextClause formatedSearch]
      end
  end.

(** [update(options)]; [now] is the clock read by [new Date()]. *)
Definition update (now : Z) (options : Partial) (this : t) : option t :=
  let this1 := assign options this in
  match searchClauses now this1 with
  | None => None
  | Some fromSearch =>
      let fromFlag :=
        match flaged this1 with Some true => ["(flag == true)"] | _ => [] end in
      Some (mk (fromSearch ++ fromFlag
                  ++ clauseIf (tag this1) tagClause
                  ++ clauseIf (folder this1) folderClause)
               (search this1) (searchMode this1) (flaged this1)
               (tag this1) (folder this1) (limit this1))
  end.

(** [new PaperFilterOptions(options)] *)
Definition create (now : Z) (options : option Partial) : option t :=
  match options with
  | Some o => update now o fresh
  | None => Some fresh
  end.

End Update.

(** Truthiness of [this.limit] for an integer limit. *)
Definition limitSet (l : option Z) : option Z :=
  match l with
  | Some n => if Z.eqb n 0 then None else Some n
  | None => None
  end.

Definition limitDirective (n : Z) : string :=
  (" LIMIT(" ++ of_Z n ++ ")")%string.

Definition toString (this : t) : string :=
  let filterStr := join " AND " (filters this) in
  match limitSet (limit this) with
  | Some n => (filterStr ++ limitDirective n)%string
  | None => filterStr
  end.

(** Modelled from the spec: [formatString] with [removeNewline] and
    [trimWhite] set "strips newlines, trims whitespace"; its source
    ([@/base/string]) is missing. *)
Definition formatString_spec (s : string) : string :=
  let cr := String (ascii_of_nat 13) EmptyString in
  let lf := String (ascii_of_nat 10) EmptyString in
  trim (replaceAll cr EmptyString (replaceAll lf EmptyString s)).

End PaperFilterOptions.

(* ================================================================= *)
(** ** Node's [path] module (POSIX flavour) *)

Module Path.

Definition slash : ascii := "/"%char.

(** [path.isAbsolute(p)] *)
Definition isAbsolute (p : string) : bool :=
  match p with
  | String c _ => Ascii.eqb c slash
  | EmptyString => false
  end.

Fixpoint dropSlashes (cs : list ascii) : list ascii :=
  match cs with
  | c :: r => if Ascii.eqb c slash then dropSlashes r else cs
  | [] => []
  end.

Fixpoint untilSlash (cs : list ascii) : list ascii :=
  match cs with
  | c :: r => if Ascii.eqb c slash then [] else c :: untilSlash r
  | [] => []
  end.

(** [path.basename(p)]: scanning from the end, the trailing slashes are
    skipped and the characters up to the next slash are kept. *)
Definition basename (p : string) : string :=
  string_of_list_ascii
    (rev (untilSlash (dropSlashes (rev (list_ascii_of_string p))))).

End Path.

(* ================================================================= *)
(** ** Models: categorizers and paper entities *)

Definition OID : Type := string.

Module CategorizerType.
Inductive t : Type := PaperTag | PaperFolder.

Definition eqb (a b : t) : bool :=
  match a, b with
  | PaperTag, PaperTag | PaperFolder, PaperFolder => true
  | _, _ => false
  end.
End CategorizerType.

Module Categorizer.
(** [_id] holds the rendering of the identity, as in [`${c._id}`]. *)
Record t : Type := mk { _id : OID; name : string; color : string }.
End Categorizer.

(** Modelled from the spec: [new PaperTag(categorizer)] is "a membership
    constructed from [categorizer]", with the categorizer's identity; the
    class ([@/models/categorizer]) is missing. *)
Definition newPaperTag (c : Categorizer.t) : Categorizer.t :=
  Categorizer.mk (Categorizer._id c) (Categorizer.name c) (Categorizer.color c).

(** Modelled from the spec: [new PaperFolder(categorizer)], as
    [newPaperTag]. *)
Definition newPaperFolder (c : Categorizer.t) : Categorizer.t :=
  Categorizer.mk (Categorizer._id c) (Categorizer.name c) (Categorizer.color c).

Module PaperEntity.
Record t : Type := mk {
  _id : OID;
  title : string;
  publication : string;
  mainURL : string;
  supURLs : list string;
  tags : list Categorizer.t;
  folders : list Categorizer.t
}.

Definition set_mainURL (v : string) (d : t) : t :=
  mk (_id d) (title d) (publication d) v (supURLs d) (tags d) (folders d).

Definition set_supURLs (v : list string) (d : t) : t :=
  mk (_id d) (title d) (publication d) (mainURL d) v (tags d) (folders d).

Definition set_tags (v : list Categorizer.t) (d : t) : t :=
  mk (_id d) (title d) (publication d) (mainURL d) (supURLs d) v (folders d).

Definition set_folders (v : list Categorizer.t) (d : t) : t :=
  mk (_id d) (title d) (publication d) (mainURL d) (supURLs d) (tags d) v.

(** Modelled from the spec: [new PaperEntity(paperEntity)] clones "a
    persisted record before mutation"; the class is missing. *)
Definition clone (d : t) : t :=
  mk (_id d) (title d) (publication d) (mainURL d) (supURLs d)
     (tags d) (folders d).
End PaperEntity.

(* ================================================================= *)
(** ** Effects: outcomes, events and the collaborators *)

(** The result of a call: a value, or an exception (a rejected promise). *)
Inductive Outcome (A : Type) : Type :=
| Ret : A -> Outcome A
| Throw : Outcome A.
Arguments Ret {A} _.
Arguments Throw {A}.

Inductive Payload : Type :=
| PayloadFile : string -> Payload
| PayloadEntity : PaperEntity.t -> Payload.

Inductive LogLevel : Type := Info | Warn | Error.

(** A call made to a collaborator.  Calls to the record store and to the
    file collaborator carry what the call answered where a property of the
    service depends on it. *)
Inductive Event : Type :=
| EvLog : LogLevel -> string -> string -> Event
| EvRealm : Event
| EvRepoLoad : string -> string -> string -> Event
| EvRepoLoadByIds : list OID -> Event
| EvRepoUpdate : PaperEntity.t -> Outcome bool -> Event
| EvRepoDelete : option (list OID) -> option (list PaperEntity.t) -> Event
| EvFileAccess : string -> Event
| EvFileMove : PaperEntity.t -> bool -> option bool -> Event
| EvFileRemove : PaperEntity.t -> Event
| EvFileMoveFile : string -> string -> Event
| EvFileRemoveFile : string -> Event
| EvCacheFilter : string -> Event
| EvCacheUpdate : list PaperEntity.t -> Event
| EvCacheDelete : list OID -> Event
| EvScrape : list Payload -> list string -> bool -> Event
| EvPrefSetLastRematchTime : Z -> Event.

Definition Trace : Type := list Event.

(** The collaborators of [PaperService], over a world [W] that holds the
    record store, the file system, the cache, the preferences and the
    clock.  Reads that change nothing are functions of the world; the other
    calls answer and move the world on.  [file_remove], [file_moveFile] and
    [cache_updateFullTextCache] are the calls the service does not await:
    they only start an operation, whose failure cannot reach the caller.
    A collaborator answers with values: the store's [update] answers a
    boolean and leaves the draft it was given as it is, and a [move] that
    fails leaves its draft as the service passed it. *)
Record Env (W : Type) : Type := mkEnv {
  dbInitializing : W -> bool;
  realm : W -> Outcome unit * W;
  getPartition : W -> string;
  repo_load : string -> string -> string -> W -> Outcome (list PaperEntity.t) * W;
  repo_loadByIds : list OID -> W -> Outcome (list PaperEntity.t) * W;
  repo_update : PaperEntity.t -> string -> W -> Outcome bool * W;
  repo_delete : option (list OID) -> option (list PaperEntity.t) -> W
                -> Outcome (list string) * W;
  file_access : string -> W -> Outcome bool * W;
  file_move : PaperEntity.t -> bool -> option bool -> W
              -> Outcome (option PaperEntity.t) * W;
  file_remove : PaperEntity.t -> W -> W;
  file_moveFile : string -> string -> W -> W;
  file_removeFile : string -> W -> Outcome unit * W;
  cache_fullTextFilter : string -> list PaperEntity.t -> W
                         -> Outcome (list PaperEntity.t) * W;
  cache_updateFullTextCache : list PaperEntity.t -> W -> W;
  cache_delete : list OID -> W -> Outcome unit * W;
  scrape_scrape : list Payload -> list string -> bool -> W
                  -> Outcome (list PaperEntity.t) * W;
  pref_sourceFileOperation : W -> string;
  pref_allowRoutineMatch : W -> bool;
  pref_lastRematchTime : W -> Z;
  pref_set_lastRematchTime : Z -> W -> W;
  date_now : W -> Z
}.

Arguments dbInitializing {W}.
Arguments realm {W}.
Arguments getPartition {W}.
Arguments repo_load {W}.
Arguments repo_loadByIds {W}.
Arguments repo_update {W}.
Arguments repo_delete {W}.
Arguments file_access {W}.
Arguments file_move {W}.
Arguments file_remove {W}.
Arguments file_moveFile {W}.
Arguments file_removeFile {W}.
Arguments cache_fullTextFilter {W}.
Arguments cache_updateFullTextCache {W}.
Arguments cache_delete {W}.
Arguments scrape_scrape {W}.
Arguments pref_sourceFileOperation {W}.
Arguments pref_allowRoutineMatch {W}.
Arguments pref_lastRematchTime {W}.
Arguments pref_set_lastRematchTime {W}.
Arguments date_now {W}.

(** An asynchronous computation: from a world to an outcome, the world it
    leaves and the calls it made, in order. *)
Definition M (W A : Type) : Type := W -> Outcome A * W * Trace.

Module Async.
Section Ops.
Context {W : Type}.

Definition ret {A} (a : A) : M W A := fun w => (Ret a, w, []).

Definition throw {A} : M W A := fun w => (Throw, w, []).

Definition bind {A B} (m : M W A) (f : A -> M W B) : M W B :=
  fun w =>
    match m w with
    | (Ret a, w1, t1) =>
        match f a w1 with
        | (o, w2, t2) => (o, w2, t1 ++ t2)
        end
    | (Throw, w1, t1) => (Throw, w1, t1)
    end.

(** A read of the world. *)
Definition read {A} (f : W -> A) : M W A := fun w => (Ret (f w), w, []).

(** A call that answers; [ev] records it together with its answer. *)
Definition call {A} (f : W -> Outcome A * W) (ev : Outcome A -> Event)
  : M W A :=
  fun w => match f w with (o, w1) => (o, w1, [ev o]) end.

(** A call whose answer is not awaited. *)
Definition start (f : W -> W) (ev : Event) : M W unit :=
  fun w => (Ret tt, f w, [ev]).

(** [try { m } catch { ... }] as a value. *)
Definition attempt {A} (m : M W A) : M W (Outcome A) :=
  fun w => match m w with (o, w1, t1) => (Ret o, w1, t1) end.

Definition log (l : LogLevel) (msg additional : string) : M W unit :=
  fun w => (Ret tt, w, [EvLog l msg additional]).

(** Runs [f] on every element, in order. *)
Fixpoint forEach {A B} (f : A -> M W B) (xs : list A) : M W (list B) :=
  match xs with
  | [] => ret []
  | x :: r =>
      bind (f x) (fun y => bind (forEach f r) (fun ys => ret (y :: ys)))
  end.
End Ops.
End Async.

Notation "x <- m ;; k" := (Async.bind m (fun x => k))
  (at level 61, m at next level, right associativity).
Notation "m ;;; k" := (Async.bind m (fun _ => k))
  (at level 61, right associativity).

(** Modelled from the spec: the decorator [@errorcatching(msg, true, id,
    dflt)] of [@/base/error], missing here: an error that escapes the
    operation is "caught at the public-operation boundary, logged, and
    converted to a safe default return value". *)
Definition errorcatching {W A} (msg : string) (dflt : A) (m : M W A) : M W A :=
  fun w =>
    match m w with
    | (Ret a, w1, t1) => (Ret a, w1, t1)
    | (Throw, w1, t1) => (Ret dflt, w1, t1 ++ [EvLog Error msg EmptyString])
    end.

(** Modelled from the spec: [chunkRun(items, worker, fallback)] of
    [@/base/chunk], missing here.  "For each item: invoke [worker(item)].
    On success, store the returned value at the item's position in
    [results].  On failure, invoke [fallback(item)] ... and append ... to
    [errors]; never propagate the exception."  The items are taken in
    order, one schedule of the bounded concurrency.  A worker may have
    changed its item before it fails, and the fallback receives that same
    object: the worker hands the item back with its outcome. *)
Fixpoint chunkRun {W I R} (worker : I -> M W (I * Outcome R))
  (fallback : I -> M W R) (items : list I) : M W (list R * list I) :=
  match items with
  | [] => Async.ret ([], [])
  | item :: rest =>
      io <- worker item ;;
      r <- match snd io with
           | Ret r => Async.ret (r, @nil I)
           | Throw => (f <- fallback (fst io) ;; Async.ret (f, [fst io]))
           end ;;
      rs <- chunkRun worker fallback rest ;;
      Async.ret (fst r :: fst rs, snd r ++ snd rs)
  end.

(* ================================================================= *)
(** ** PaperService

    The decorator [@processing] only counts running operations for the
    user interface and is left out. *)

Module PaperService.

Import JSString.

Definition nonNull {A} (xs : list (option A)) : list A :=
  flat_map (fun x => match x with Some a => [a] | None => [] end) xs.

Definition isThrow {A} (o : Outcome A) : bool :=
  match o with Throw => true | Ret _ => false end.

(** The callback of the [map] after the file stage; a [null] entry makes
    the property access throw a [TypeError]. *)
Definition normalizePaths (d : PaperEntity.t) : PaperEntity.t :=
  let m := PaperEntity.mainURL d in
  let d1 :=
    if truthy m && Path.isAbsolute m
    then PaperEntity.set_mainURL EmptyString d
    else PaperEntity.set_mainURL (Path.basename m) d in
  PaperEntity.set_supURLs
    (filter (fun url => negb (Path.isAbsolute url)) (PaperEntity.supURLs d1))
    d1.

Fixpoint normalizeAll (rs : list (option PaperEntity.t))
  : Outcome (list PaperEntity.t) :=
  match rs with
  | [] => Ret []
  | None :: _ => Throw
  | Some d :: rest =>
      match normalizeAll rest with
      | Ret ds => Ret (normalizePaths d :: ds)
      | Throw => Throw
      end
  end.

Definition sameId (a c : Categorizer.t) : bool :=
  (Categorizer._id a =? Categorizer._id c)%string.

(** The callback of the [map] in [updateWithCategorizer]. *)
Definition withCategorizer (type : CategorizerType.t) (categorizer : Categorizer.t)
  (d : PaperEntity.t) : PaperEntity.t :=
  match type with
  | CategorizerType.PaperTag =>
      PaperEntity.set_tags
        (filter (fun tag => negb (sameId tag categorizer)) (PaperEntity.tags d)
           ++ [newPaperTag categorizer]) d
  | CategorizerType.PaperFolder =>
      PaperEntity.set_folders
        (filter (fun folder => negb (sameId folder categorizer))
           (PaperEntity.folders d)
           ++ [newPaperFolder categorizer]) d
  end.

(** The callback of the [map] in [createIntoCategorizer].  Its test is
    the assignment [(type = CategorizerType.PaperTag)]: [type] becomes
    [PaperTag] and the test is the truthiness of that enum member,
    [tagTruthy] (the enum's declaration is missing).  [setValue] is taken
    to assign the field. *)
Definition intoCategorizer (tagTruthy : bool) (type : CategorizerType.t)
  (categorizer : Categorizer.t) (d : PaperEntity.t) : PaperEntity.t :=
  let type' := CategorizerType.PaperTag in
  if tagTruthy
  then PaperEntity.set_tags [newPaperTag categorizer] d
  else if CategorizerType.eqb type' CategorizerType.PaperFolder
  then PaperEntity.set_folders [newPaperFolder categorizer] d
  else d.

(** [Math.round(Date.now() / 1000)] *)
Definition nowSeconds (ms : Z) : Z := ((ms + 500) / 1000)%Z.

Definition rematchPeriod : Z := (7 * 86400)%Z.
Definition rematchTolerance : Z := 10%Z.

Definition preprintQuery : string :=
  let dq := PaperFilterOptions.dq in
  ("(publication contains[c] " ++ dq ++ "arXiv" ++ dq
     ++ ") OR (publication contains[c] " ++ dq ++ "openreview" ++ dq
     ++ ") OR publication == " ++ dq ++ dq)%string.

Section Service.

Context {W : Type} (env : Env W).

Definition initializing : M W bool := Async.read (dbInitializing env).

Definition getRealm : M W unit := Async.call (realm env) (fun _ => EvRealm).

Definition count {A} (xs : list A) : string := of_Z (Z.of_nat (List.length xs)).

(* ---------------------------------------------------------- *)
(** *** update *)

(** The worker of the file stage. *)
Definition moveWorker (d : PaperEntity.t)
  : M W (PaperEntity.t * Outcome (option PaperEntity.t)) :=
  let url := PaperEntity.mainURL d in
  a <- Async.attempt
         (Async.call (file_access env url) (fun _ => EvFileAccess url)) ;;
  match a with
  | Throw => Async.ret (d, Throw)
  | Ret ok =>
      d1 <- (if negb ok && truthy url
             then Async.log Warn "File doesn't exist anymore." url ;;;
                  Async.ret (PaperEntity.set_mainURL EmptyString d)
             else Async.ret d) ;;
      cut <- Async.read
               (fun w => (pref_sourceFileOperation env w =? "cut")%string) ;;
      r <- Async.attempt
             (Async.call (file_move env d1 cut None)
                (fun _ => EvFileMove d1 cut None)) ;;
      Async.ret (d1, r)
  end.

(** One round of the loop "2. Update database". *)
Definition persistOne (paperEntity : PaperEntity.t)
  : M W (option PaperEntity.t) :=
  partition <- Async.read (getPartition env) ;;
  o <- Async.attempt
         (Async.call (repo_update env paperEntity partition)
            (fun o => EvRepoUpdate paperEntity o)) ;;
  success <- match o with
             | Ret b => Async.ret b
             | Throw =>
                 Async.log Error "Faild to update paper entity." EmptyString ;;;
                 Async.ret false
             end ;;
  Async.ret (if success : bool then Some paperEntity else None).

(** One round of the loop "handle files of failed updated paper
    entities". *)
Definition reconcileOne (p : PaperEntity.t * option PaperEntity.t)
  : M W unit :=
  let fileMovedPaperEntityDraft := fst p in
  match snd p with
  | None =>
      Async.start (file_remove env fileMovedPaperEntityDraft)
        (EvFileRemove fileMovedPaperEntityDraft)
  | Some updatedPaperEntityDraft =>
      let from := PaperEntity.mainURL fileMovedPaperEntityDraft in
      let to := PaperEntity.mainURL updatedPaperEntityDraft in
      if negb (from =? to)%string
      then Async.start (file_moveFile env from to) (EvFileMoveFile from to)
      else Async.ret tt
  end.

Definition update_body (paperEntityDrafts : list PaperEntity.t)
  : M W (list PaperEntity.t) :=
  init <- initializing ;;
  if init : bool then Async.ret [] else
  Async.log Info ("Updating " ++ count paperEntityDrafts ++ " paper(s)...")
    EmptyString ;;;
  moved <- chunkRun moveWorker (fun d => Async.ret (Some d)) paperEntityDrafts ;;
  Async.forEach
    (fun _ : PaperEntity.t => Async.log Error "Failed to move file." EmptyString)
    (snd moved) ;;;
  match normalizeAll (fst moved) with
  | Throw => Async.throw
  | Ret fileMovedPaperEntityDrafts =>
      getRealm ;;;
      updatedPaperEntityDrafts <-
        Async.forEach persistOne fileMovedPaperEntityDrafts ;;
      Async.forEach reconcileOne
        (combine fileMovedPaperEntityDrafts updatedPaperEntityDrafts) ;;;
      let successfulEntityDrafts := nonNull updatedPaperEntityDrafts in
      Async.start (cache_updateFullTextCache env successfulEntityDrafts)
        (EvCacheUpdate successfulEntityDrafts) ;;;
      Async.ret successfulEntityDrafts
  end.

Definition update (paperEntityDrafts : list PaperEntity.t)
  : M W (list PaperEntity.t) :=
  errorcatching "Failed to update paper entities." [] (update_body paperEntityDrafts).

(* ---------------------------------------------------------- *)
(** *** load, loadByIds *)

Definition load (querySentence sortBy sortOrder : string)
  (fulltextQuerySentence : option string) : M W (list PaperEntity.t) :=
  errorcatching "Failed to load paper entities." []
    (init <- initializing ;;
     if init : bool then Async.ret [] else
     match PaperFilterOptions.truthyStr fulltextQuerySentence with
     | Some q =>
         getRealm ;;;
         allPaperEntities <-
           Async.call (repo_load env querySentence sortBy sortOrder)
             (fun _ => EvRepoLoad querySentence sortBy sortOrder) ;;
         Async.call (cache_fullTextFilter env q allPaperEntities)
           (fun _ => EvCacheFilter q)
     | None =>
         getRealm ;;;
         Async.call (repo_load env querySentence sortBy sortOrder)
           (fun _ => EvRepoLoad querySentence sortBy sortOrder)
     end).

Definition loadByIds (ids : list OID) : M W (list PaperEntity.t) :=
  errorcatching "Failed to load paper entities by Ids." []
    (init <- initializing ;;
     if init : bool then Async.ret [] else
     getRealm ;;;
     Async.call (repo_loadByIds env ids) (fun _ => EvRepoLoadByIds ids)).

(* ---------------------------------------------------------- *)
(** *** updateWithCategorizer *)

Definition updateWithCategorizer (ids : list OID)
  (categorizer : Categorizer.t) (type : CategorizerType.t) : M W unit :=
  errorcatching "Failed to update paper entities with categorizer." tt
    (init <- initializing ;;
     if init : bool then Async.ret tt else
     paperEntities <- loadByIds ids ;;
     let paperEntityDrafts := map PaperEntity.clone paperEntities in
     update (map (withCategorizer type categorizer) paperEntityDrafts) ;;;
     Async.ret tt).

(* ---------------------------------------------------------- *)
(** *** delete, deleteSup *)

Definition removeFileIfAny (url : string) : M W (Outcome unit) :=
  if truthy url
  then Async.attempt
         (Async.call (file_removeFile env url) (fun _ => EvFileRemoveFile url))
  else Async.ret (Ret tt).

Definition delete (ids : option (list OID))
  (paperEntities : option (list PaperEntity.t)) : M W unit :=
  errorcatching "Failed to delete paper entities." tt
    (init <- initializing ;;
     if init : bool then Async.ret tt else
     let n := match ids with
              | Some l => (count l ++ " ")%string
              | None => "undefined "
              end in
     Async.log Info ("Deleting " ++ n ++ "paper(s)...") EmptyString ;;;
     getRealm ;;;
     toBeDeletedFiles <-
       Async.call (repo_delete env ids paperEntities)
         (fun _ => EvRepoDelete ids paperEntities) ;;
     removed <- Async.forEach removeFileIfAny toBeDeletedFiles ;;
     (if existsb isThrow removed then Async.throw else Async.ret tt) ;;;
     let cacheIds :=
       match ids with
       | Some l => Some l
       | None => option_map (map PaperEntity._id) paperEntities
       end in
     match cacheIds with
     | Some c => Async.call (cache_delete env c) (fun _ => EvCacheDelete c)
     | None => Async.ret tt
     end).

Definition deleteSup (paperEntity : PaperEntity.t) (url : string) : M W unit :=
  errorcatching "Failed to delete supplementary file." tt
    (Async.log Info "Removing supplementary file..." url ;;;
     Async.call (file_removeFile env url) (fun _ => EvFileRemoveFile url) ;;;
     let paperEntity' :=
       PaperEntity.set_supURLs
         (filter (fun supUrl => negb (supUrl =? Path.basename url)%string)
            (PaperEntity.supURLs paperEntity))
         paperEntity in
     update [paperEntity'] ;;;
     Async.ret tt).

(* ---------------------------------------------------------- *)
(** *** create, createIntoCategorizer *)

Definition create (urlList : list string) : M W (list PaperEntity.t) :=
  errorcatching "Failed to create paper entities." []
    (let payloads := map PayloadFile urlList in
     scrapedPaperEntityDrafts <-
       Async.call (scrape_scrape env payloads [] false)
         (fun _ => EvScrape payloads [] false) ;;
     update scrapedPaperEntityDrafts).

Definition createIntoCategorizer (tagTruthy : bool) (urlList : list string)
  (categorizer : Categorizer.t) (type : CategorizerType.t)
  : M W (list PaperEntity.t) :=
  errorcatching "Failed to create paper entities with categorizer." []
    (init <- initializing ;;
     if init : bool then Async.ret [] else
     paperEntityDrafts <- create urlList ;;
     update (map (intoCategorizer tagTruthy type categorizer) paperEntityDrafts)).

(* ---------------------------------------------------------- *)
(** *** scrape, scrapePreprint *)

Definition scrape (paperEntities : list PaperEntity.t)
  (specificScrapers : option (list string)) : M W unit :=
  errorcatching "Failed to scrape metadata." tt
    (init <- initializing ;;
     if init : bool then Async.ret tt else
     Async.log Info ("Scraping " ++ count paperEntities ++ " paper(s)...")
       EmptyString ;;;
     let payloads := map PayloadEntity paperEntities in
     let scrapers := match specificScrapers with Some l => l | None => [] end in
     let exclusive := match specificScrapers with Some _ => true | None => false end in
     scrapedPaperEntityDrafts <-
       Async.call (scrape_scrape env payloads scrapers exclusive)
         (fun _ => EvScrape payloads scrapers exclusive) ;;
     update scrapedPaperEntityDrafts ;;;
     Async.ret tt).

Definition scrapePreprint : M W unit :=
  errorcatching "Failed to scrape metadata of preprints." tt
    (init <- initializing ;;
     if init : bool then Async.ret tt else
     allow <- Async.read (pref_allowRoutineMatch env) ;;
     if allow : bool then
       now <- Async.read (fun w => nowSeconds (date_now env w)) ;;
       last <- Async.read (pref_lastRematchTime env) ;;
       if (now - last <? rematchPeriod - rematchTolerance)%Z
       then Async.ret tt
       else
         Async.log Info "Scraping metadata of preprint paper(s)..." EmptyString ;;;
         getRealm ;;;
         preprintPaperEntities <-
           Async.call (repo_load env preprintQuery "addTime" "desc")
             (fun _ => EvRepoLoad preprintQuery "addTime" "desc") ;;
         scrape (map PaperEntity.clone preprintPaperEntities) None ;;;
         stamp <- Async.read (fun w => nowSeconds (date_now env w)) ;;
         Async.start (pref_set_lastRematchTime env stamp)
           (EvPrefSetLastRematchTime stamp)
     else Async.ret tt).

(* ---------------------------------------------------------- *)
(** *** renameAll *)

Fixpoint orOriginal (moved : list (Outcome (option PaperEntity.t)))
  (originals : list PaperEntity.t) : list PaperEntity.t :=
  match moved, originals with
  | Ret (Some d) :: ms, _ :: os => d :: orOriginal ms os
  | _ :: ms, o :: os => o :: orOriginal ms os
  | _, _ => []
  end.

Definition renameAll : M W unit :=
  errorcatching "Failed to rename all paper entities." tt
    (init <- initializing ;;
     if init : bool then Async.ret tt else
     Async.log Info "Renaming all paper(s)..." EmptyString ;;;
     paperEntities <- load EmptyString "title" "desc" None ;;
     let paperEntityDrafts := map PaperEntity.clone paperEntities in
     moved <- Async.forEach
                (fun d => Async.attempt
                            (Async.call (file_move env d true (Some false))
                               (fun _ => EvFileMove d true (Some false))))
                paperEntityDrafts ;;
     (if existsb isThrow moved then Async.throw else Async.ret tt) ;;;
     update (orOriginal moved paperEntityDrafts) ;;;
     Async.ret tt).

End Service.

End PaperService.

(* ================================================================= *)
(** ** A small concrete world

    One instance of the collaborators, used to run the service on concrete
    inputs: the record store is a list of rows, the file system and the
    managed library a list of file names, the cache a list of identities.
    The store refuses a draft titled "locked" by throwing and a draft
    without a title by answering [false]. *)

Module Demo.

Record World : Type := mkWorld {
  initFlag : bool;
  rows : list PaperEntity.t;
  files : list string;
  cached : list OID;
  allowRoutine : bool;
  lastRematch : Z;
  clock : Z
}.

Definition mem (s : string) (xs : list string) : bool :=
  existsb (String.eqb s) xs.

Definition without (s : string) (xs : list string) : list string :=
  filter (fun x => negb (String.eqb s x)) xs.

Definition set_rows (v : list PaperEntity.t) (w : World) : World :=
  mkWorld (initFlag w) v (files w) (cached w) (allowRoutine w)
    (lastRematch w) (clock w).

Definition set_files (v : list string) (w : World) : World :=
  mkWorld (initFlag w) (rows w) v (cached w) (allowRoutine w)
    (lastRematch w) (clock w).

Definition set_cached (v : list OID) (w : World) : World :=
  mkWorld (initFlag w) (rows w) (files w) v (allowRoutine w)
    (lastRematch w) (clock w).

Definition set_lastRematch (v : Z) (w : World) : World :=
  mkWorld (initFlag w) (rows w) (files w) (cached w) (allowRoutine w)
    v (clock w).

Definition set_clock (v : Z) (w : World) : World :=
  mkWorld (initFlag w) (rows w) (files w) (cached w) (allowRoutine w)
    (lastRematch w) v.

Definition store_update (d : PaperEntity.t) (w : World) : Outcome bool * World :=
  if (PaperEntity.title d =? "locked")%string then (Throw, w)
  else if (PaperEntity.title d =? EmptyString)%string then (Ret false, w)
  else (Ret true, set_rows (rows w ++ [d]) w).

Definition move (d : PaperEntity.t) (cut : bool) (w : World)
  : Outcome (option PaperEntity.t) * World :=
  let url := PaperEntity.mainURL d in
  if mem url (files w)
  then
    let name := Path.basename url in
    let kept := if cut then without url (files w) else files w in
    (Ret (Some (PaperEntity.set_mainURL name d)), set_files (kept ++ [name]) w)
  else if JSString.truthy url then (Throw, w)
  else (Ret (Some d), w).

Definition entityOf (p : Payload) : PaperEntity.t :=
  match p with
  | PayloadFile url =>
      PaperEntity.mk EmptyString (Path.basename url) EmptyString url [] [] []
  | PayloadEntity d => d
  end.

Definition env : Env World :=
  mkEnv World
    initFlag
    (fun w => (Ret tt, w))
    (fun _ => EmptyString)
    (fun _ _ _ w => (Ret (rows w), w))
    (fun ids w =>
       (Ret (filter (fun d => mem (PaperEntity._id d) ids) (rows w)), w))
    (fun d _ w => store_update d w)
    (fun _ _ w => (Ret [], w))
    (fun url w => (Ret (mem url (files w)), w))
    (fun d cut _ w => move d cut w)
    (fun d w => set_files (without (PaperEntity.mainURL d) (files w)) w)
    (fun from to w =>
       set_files (map (fun f => if (f =? from)%string then to else f) (files w)) w)
    (fun url w => (Ret tt, set_files (without url (files w)) w))
    (fun _ ds w => (Ret ds, w))
    (fun ds w => set_cached (cached w ++ map PaperEntity._id ds) w)
    (fun ids w =>
       (Ret tt, set_cached (filter (fun i => negb (mem i ids)) (cached w)) w))
    (fun payloads _ _ w => (Ret (map entityOf payloads), w))
    (fun _ => "cut")
    allowRoutine
    lastRematch
    set_lastRematch
    clock.

Definition draft (title mainURL : string) (sups : list string) : PaperEntity.t :=
  PaperEntity.mk title title EmptyString mainURL sups [] [].

(** A ready store, three files on disk, routine rematching allowed. *)
Definition ready : World :=
  mkWorld false [] ["/tmp/a.pdf"; "/tmp/b.pdf"; "/tmp/c.pdf"] []
    true 1000000 1000500000.

(** The same world while the store is still initializing. *)
Definition starting : World :=
  mkWorld true [] ["/tmp/a.pdf"; "/tmp/b.pdf"; "/tmp/c.pdf"] []
    true 1000000 1000500000.

(** A firing of the rescrape task long after the last rematch. *)
Definition due : World := set_clock 2000000000 ready.

(** Four drafts: one that goes through, one the store throws on, one
    whose file is gone, one the store answers [false] for. *)
Definition batch : list PaperEntity.t :=
  [ draft "A" "/tmp/a.pdf" ["/x/s.zip"; "s2.zip"];
    draft "locked" "/tmp/b.pdf" [];
    draft "C" "/tmp/zz.pdf" [];
    draft EmptyString "/tmp/c.pdf" [] ].

End Demo.

(* ================================================================= *)
(** ** Observations on results and traces *)

Definition outcomeOf {W A} (r : Outcome A * W * Trace) : Outcome A := fst (fst r).
Definition worldOf {W A} (r : Outcome A * W * Trace) : W := snd (fst r).
Definition traceOf {W A} (r : Outcome A * W * Trace) : Trace := snd r.

(** The store accepted the write: [update] answered [true]. *)
Definition accepted (o : Outcome bool) : bool :=
  match o with Ret true => true | _ => false end.

(** The drafts the store wrote, in the order of the calls. *)
Definition persisted (tr : Trace) : list PaperEntity.t :=
  flat_map (fun ev => match ev with
                      | EvRepoUpdate d o => if accepted o then [d] else []
                      | _ => []
                      end) tr.

(** The drafts whose write failed (answered [false] or threw). *)
Definition failedWrites (tr : Trace) : list PaperEntity.t :=
  flat_map (fun ev => match ev with
                      | EvRepoUpdate d o => if accepted o then [] else [d]
                      | _ => []
                      end) tr.

(** The drafts handed to the file collaborator's [remove]. *)
Definition removals (tr : Trace) : list PaperEntity.t :=
  flat_map (fun ev => match ev with EvFileRemove d => [d] | _ => [] end) tr.

(** Calls that reach the record store, the file system or the cache. *)
Definition touchesStore (ev : Event) : bool :=
  match ev with
  | EvRealm | EvRepoLoad _ _ _ | EvRepoLoadByIds _ | EvRepoUpdate _ _
  | EvRepoDelete _ _ => true
  | _ => false
  end.

Definition touchesFiles (ev : Event) : bool :=
  match ev with
  | EvFileAccess _ | EvFileMove _ _ _ | EvFileRemove _ | EvFileMoveFile _ _
  | EvFileRemoveFile _ => true
  | _ => false
  end.

Definition touchesCache (ev : Event) : bool :=
  match ev with
  | EvCacheFilter _ | EvCacheUpdate _ | EvCacheDelete _ => true
  | _ => false
  end.

Definition isScrape (ev : Event) : bool :=
  match ev with EvScrape _ _ _ => true | _ => false end.

(** Write attempts and removals: the events the reconciliation of the
    store with the file system is about. *)
Definition isCore (ev : Event) : bool :=
  match ev with
  | EvRepoUpdate _ _ | EvFileRemove _ => true
  | _ => false
  end.

Definition writeEv (p : PaperEntity.t * Outcome bool) : Event :=
  EvRepoUpdate (fst p) (snd p).

Definition verdict (p : PaperEntity.t * Outcome bool) : option PaperEntity.t :=
  if accepted (snd p) then Some (fst p) else None.

Definition keptOf (wr : list (PaperEntity.t * Outcome bool)) : list PaperEntity.t :=
  flat_map (fun p => if accepted (snd p) then [fst p] else []) wr.

Definition rejectedOf (wr : list (PaperEntity.t * Outcome bool)) : list PaperEntity.t :=
  flat_map (fun p => if accepted (snd p) then [] else [fst p]) wr.

(** Options of an advanced-mode search, the other keys absent. *)
Definition advancedSearch (s : string) (limit : option (option Z))
  : PaperFilterOptions.Partial :=
  PaperFilterOptions.mkPartial (Some (Some s))
    (Some (Some PaperFilterOptions.advanced)) None None None limit.

(** How many memberships of a list carry the identity of [c]. *)
Definition membershipsOf (c : Categorizer.t) (ms : list Categorizer.t) : nat :=
  List.length (filter (fun m => PaperService.sameId m c) ms).

Definition others (c : Categorizer.t) (ms : list Categorizer.t) : list Categorizer.t :=
  filter (fun m => negb (PaperService.sameId m c)) ms.

Definition membershipsIn (type : CategorizerType.t) (d : PaperEntity.t)
  : list Categorizer.t :=
  match type with
  | CategorizerType.PaperTag => PaperEntity.tags d
  | CategorizerType.PaperFolder => PaperEntity.folders d
  end.

(** The clauses of a filter joined by [AND], before any limit. *)
Definition clausesOf (o : PaperFilterOptions.t) : string :=
  JSString.join " AND " (PaperFilterOptions.filters o).

Definition withLimit (l : option Z) (o : PaperFilterOptions.t)
  : PaperFilterOptions.t :=
  PaperFilterOptions.mk (PaperFilterOptions.filters o)
    (PaperFilterOptions.search o) (PaperFilterOptions.searchMode o)
    (PaperFilterOptions.flaged o) (PaperFilterOptions.tag o)
    (PaperFilterOptions.folder o) l.

Definition otherType (type : CategorizerType.t) : CategorizerType.t :=
  match type with
  | CategorizerType.PaperTag => CategorizerType.PaperFolder
  | CategorizerType.PaperFolder => CategorizerType.PaperTag
  end.

(** The write attempts on the record store, with their answers. *)
Definition writesOf (tr : Trace) : list (PaperEntity.t * Outcome bool) :=
  flat_map (fun ev => match ev with EvRepoUpdate d o => [(d, o)] | _ => [] end) tr.

(** What the file stage of [update] hands to the path normalization: one
    entry per input draft. *)
Definition fileStageResults {W} (env : Env W) (ds : list PaperEntity.t) (w : W)
  : list (option PaperEntity.t) :=
  match outcomeOf (chunkRun (PaperService.moveWorker env)
                     (fun d => Async.ret (Some d)) ds w) with
  | Ret moved => fst moved
  | Throw => []
  end.

(** Where an entry of the file stage's results comes from: the draft
    itself or the draft with its primary reference cleared (the fallback),
    or the answer of the file collaborator's [move] for one of these. *)
Definition relocationOf {W} (env : Env W) (d : PaperEntity.t)
  (r : option PaperEntity.t) : Prop :=
  r = Some d
  \/ r = Some (PaperEntity.set_mainURL EmptyString d)
  \/ exists d1 cut w,
      (d1 = d \/ d1 = PaperEntity.set_mainURL EmptyString d)
      /\ fst (file_move env d1 cut None w) = Ret r.

(** The store does not fall back to its initializing state while it
    answers [realm] or [load]. *)
Definition keepsReady {W} (env : Env W) : Prop :=
  (forall w, dbInitializing env (snd (realm env w)) = dbInitializing env w)
  /\ (forall q a b w,
        dbInitializing env (snd (repo_load env q a b w)) = dbInitializing env w).

(* ================================================================= *)
(** ** The rest of the paper service *)

(** [migrateLocaltoCloud].  [openLocal] stands for the three steps that
    read the local store, [getLocalConfig(false)], [new Realm(localConfig)]
    and [objects("PaperEntity")]: it answers the local entities or
    throws. *)
Definition migrateLocaltoCloud {W} (env : Env W)
  (openLocal : M W (list PaperEntity.t)) : M W unit :=
  errorcatching
    "Failed to migrate the local paper entities to the cloud database." tt
    (entities <- openLocal ;;
     PaperService.update env (map PaperEntity.clone entities) ;;;
     Async.log Info
       ("Migrated " ++ PaperService.count entities
          ++ " paper(s) to cloud database.")
       EmptyString).

(** A computation makes only calls that satisfy [P] and, when it answers,
    answers a value that satisfies [Q]. *)
Definition Emits {W A} (P : Event -> Prop) (Q : A -> Prop) (m : M W A) : Prop :=
  forall w, Forall P (traceOf (m w))
            /\ (forall a, outcomeOf (m w) = Ret a -> Q a).

(** The calls [update] can make. *)
Definition updateCall (ev : Event) : bool :=
  match ev with
  | EvLog _ _ _ | EvFileAccess _ | EvFileMove _ _ None | EvRealm
  | EvRepoUpdate _ _ | EvFileRemove _ | EvCacheUpdate _ => true
  | _ => false
  end.

(** The calls [load] and [loadByIds] can make. *)
Definition loadCall (ev : Event) : bool :=
  match ev with
  | EvLog Error _ _ | EvRealm | EvRepoLoad _ _ _ | EvRepoLoadByIds _
  | EvCacheFilter _ => true
  | _ => false
  end.


(** The same filter state with other clauses. *)
Definition withFilters (fs : list string) (o : PaperFilterOptions.t)
  : PaperFilterOptions.t :=
  PaperFilterOptions.mk fs
    (PaperFilterOptions.search o) (PaperFilterOptions.searchMode o)
    (PaperFilterOptions.flaged o) (PaperFilterOptions.tag o)
    (PaperFilterOptions.folder o) (PaperFilterOptions.limit o).

(** Every space replaced by a star. *)
Fixpoint spaceToStar (s : string) : string :=
  match s with
  | EmptyString => EmptyString
  | String c r =>
      String (if Ascii.eqb c " " then "*"%char else c) (spaceToStar r)
  end.

(** The general-mode clause for a given pattern. *)
Definition likeAnyField (pattern : string) : string :=
  let dq := PaperFilterOptions.dq in
  ("(title LIKE[c] " ++ dq ++ pattern ++ dq
     ++ " OR authors LIKE[c] " ++ dq ++ pattern ++ dq
     ++ " OR publication LIKE[c] " ++ dq ++ pattern ++ dq
     ++ " OR note LIKE[c] " ++ dq ++ pattern ++ dq ++ ")")%string.

(** [s'] is what is left of [s] after some of its characters. *)
Definition isSuffix (s' s : string) : Prop := exists n, JSString.drop n s = s'.

(* ================================================================= *)
(** ** WindowProcessManagementService

    [src/app/main/services/window-process-management-service.ts].  The
    windows live in a [WindowStorage], whose source is missing: [get] is
    its lookup, [undefined] for an identifier it does not hold, and [all]
    the entries of the record it returns, in order.  A method called on
    [undefined] throws a [TypeError]. *)

Module WindowService.

Inductive Call (Win : Type) : Type :=
| WinShow : Win -> Call Win
| WinHide : Win -> Call Win
| WinMinimize : Win -> Call Win
| WinMaximize : Win -> Call Win
| WinClose : Win -> Call Win
| WinDestroy : Win -> Call Win
| SetWindowSize : Z -> Z -> Call Win
| AppQuit : Call Win
| PreventDefault : Call Win
| OpenExternal : string -> Call Win.

Arguments WinShow {Win} _.
Arguments WinHide {Win} _.
Arguments WinMinimize {Win} _.
Arguments WinMaximize {Win} _.
Arguments WinClose {Win} _.
Arguments WinDestroy {Win} _.
Arguments SetWindowSize {Win} _ _.
Arguments AppQuit {Win}.
Arguments PreventDefault {Win}.
Arguments OpenExternal {Win} _.

Record Storage (Win : Type) : Type := mkStorage {
  get : string -> option Win;
  all : list (string * Win)
}.
Arguments get {Win}.
Arguments all {Win}.

(** The outcome of a method and the calls made until it returned or
    threw. *)
Definition Run (Win : Type) : Type := Outcome unit * list (Call Win).

Definition done {Win} (calls : list (Call Win)) : Run Win := (Ret tt, calls).

(** [a; b] *)
Definition andThen {Win} (a b : Run Win) : Run Win :=
  match fst a with
  | Ret _ => (fst b, snd a ++ snd b)
  | Throw => (Throw, snd a)
  end.

(** [win.method()] on the result of a lookup. *)
Definition callOn {Win} (win : option Win) (method : Win -> Call Win) : Run Win :=
  match win with
  | Some w => done [method w]
  | None => (Throw, [])
  end.

Fixpoint forEntries {Win} (body : string * Win -> Run Win)
  (entries : list (string * Win)) : Run Win :=
  match entries with
  | [] => done []
  | e :: rest => andThen (body e) (forEntries body rest)
  end.

Section Methods.

Context {Win : Type} (browserWindows : Storage Win).

Definition show (windowId : string) : Run Win :=
  match get browserWindows windowId with
  | Some win => done [WinShow win]
  | None => done []
  end.

Definition hide (windowId : string) : Run Win :=
  match get browserWindows windowId with
  | Some win => done [WinHide win]
  | None => done []
  end.

Definition minimize (windowId : string) : Run Win :=
  if (windowId =? "rendererProcess")%string
  then
    andThen (callOn (get browserWindows windowId) WinMinimize)
      (forEntries
         (fun e => if negb (fst e =? "rendererProcess")%string
                   then done [WinHide (snd e)] else done [])
         (all browserWindows))
  else done [].

Definition maximize (windowId : string) : Run Win :=
  if (windowId =? "rendererProcess")%string
  then callOn (get browserWindows windowId) WinMaximize
  else done [].

(** [close]; [darwin] is [os.platform() === "darwin"]. *)
Definition close (darwin : bool) (windowId : string) : Run Win :=
  if darwin
  then
    if (windowId =? "rendererProcess")%string
    then forEntries (fun e => done [WinHide (snd e)]) (all browserWindows)
    else callOn (get browserWindows windowId) WinHide
  else
    if (windowId =? "rendererProcess")%string
    then andThen
           (forEntries (fun e => done [WinClose (snd e)]) (all browserWindows))
           (done [AppQuit])
    else callOn (get browserWindows windowId) WinClose.

Definition forceClose (windowId : string) : Run Win :=
  if (windowId =? "rendererProcess")%string
  then forEntries (fun e => done [WinClose (snd e)]) (all browserWindows)
  else callOn (get browserWindows windowId) WinClose.

(** The [close] callback that [createMainRenderer] registers; [winSize] is
    what [win.getNormalBounds()] answered, [darwin] is
    [process.platform === "darwin"]. *)
Definition mainCloseCallback (darwin : bool) (win : Win)
  (winSize : option (Z * Z)) : Run Win :=
  andThen
    (match winSize with
     | Some wh => done [SetWindowSize (fst wh) (snd wh)]
     | None => done []
     end)
    (andThen
       (forEntries
          (fun e =>
             if negb (fst e =? "mainRenderer")%string
             then andThen (done [WinClose (snd e)])
                    (callOn (get browserWindows (fst e)) WinDestroy)
             else done [])
          (all browserWindows))
       (andThen (done [WinClose win])
          (andThen (callOn (get browserWindows "mainRenderer") WinDestroy)
             (if darwin then done [] else done [AppQuit])))).

End Methods.

(** The part of [process.env] the link handlers read. *)
Record ProcessEnv : Type := mkProcessEnv {
  VITE_DEV_SERVER_URL : option string;
  NODE_ENV : option string
}.

(** [url.includes(process.env.VITE_DEV_SERVER_URL || "") &&
     process.env.NODE_ENV === "development"] *)
Definition devServerLink (penv : ProcessEnv) (url : string) : bool :=
  let dev := match PaperFilterOptions.truthyStr (VITE_DEV_SERVER_URL penv) with
             | Some s => s
             | None => EmptyString
             end in
  JSString.includes dev url
  && match NODE_ENV penv with
     | Some m => (m =? "development")%string
     | None => false
     end.

Inductive Action : Type := allow | deny.

(** The handler given to [setWindowOpenHandler]. *)
Definition windowOpenHandler {Win} (penv : ProcessEnv) (url : string)
  : Action * list (Call Win) :=
  if devServerLink penv url then (allow, [])
  else if prefix "http" url then (deny, [OpenExternal url])
  else (deny, []).

(** The listener of [will-navigate]. *)
Definition willNavigate {Win} (penv : ProcessEnv) (url : string)
  : list (Call Win) :=
  if devServerLink penv url then []
  else [PreventDefault; OpenExternal url].

End WindowService.

(* ================================================================= *)
(** ** More concrete collaborators *)

(** The concrete world's collaborators with another store deletion, file
    removal and scraper. *)
Definition demoEnvWith
  (repoDelete : option (list OID) -> option (list PaperEntity.t) -> Demo.World
                -> Outcome (list string) * Demo.World)
  (removeFile : string -> Demo.World -> Outcome unit * Demo.World)
  (scraper : list Payload -> list string -> bool -> Demo.World
             -> Outcome (list PaperEntity.t) * Demo.World)
  : Env Demo.World :=
  mkEnv Demo.World
    (dbInitializing Demo.env) (realm Demo.env) (getPartition Demo.env)
    (repo_load Demo.env) (repo_loadByIds Demo.env) (repo_update Demo.env)
    repoDelete
    (file_access Demo.env) (file_move Demo.env) (file_remove Demo.env)
    (file_moveFile Demo.env)
    removeFile
    (cache_fullTextFilter Demo.env) (cache_updateFullTextCache Demo.env)
    (cache_delete Demo.env)
    scraper
    (pref_sourceFileOperation Demo.env) (pref_allowRoutineMatch Demo.env)
    (pref_lastRematchTime Demo.env) (pref_set_lastRematchTime Demo.env)
    (date_now Demo.env).

(** A store whose deletion answers three file URLs, one of them empty, a
    file collaborator that cannot remove [/tmp/b.pdf], a scraper that
    throws. *)
Definition stubbornEnv : Env Demo.World :=
  demoEnvWith
    (fun _ _ w => (Ret ["a.pdf"; EmptyString; "/tmp/b.pdf"], w))
    (fun url w => if (url =? "/tmp/b.pdf")%string then (Throw, w)
                  else file_removeFile Demo.env url w)
    (fun _ _ _ w => (Throw, w)).


(** A local store holding one entity. *)
Definition oneLocalEntity : M Demo.World (list PaperEntity.t) :=
  fun w => (Ret [Demo.draft "L" EmptyString []], w, []).

(** Two windows, the main one and a second one, handles being numbers. *)
Definition twoWindows : WindowService.Storage nat :=
  WindowService.mkStorage nat
    (fun id => if (id =? "rendererProcess")%string then Some 1
               else if (id =? "quickpaste")%string then Some 2
               else None)
    [("rendererProcess", 1); ("quickpaste", 2)].

Definition production : WindowService.ProcessEnv :=
  WindowService.mkProcessEnv None (Some "production").

Definition developmentWithoutServer : WindowService.ProcessEnv :=
  WindowService.mkProcessEnv None (Some "development").

(* ================================================================= *)
(** ** String lemmas *)

Lemma string_length_append (a b : string) :
  String.length (a ++ b) = String.length a + String.length b.
Proof.
  induction a as [|c a IH]; simpl; [reflexivity | now rewrite IH].
Qed.

Lemma string_append_empty_r (a : string) : (a ++ EmptyString)%string = a.
Proof.
  induction a as [|c a IH]; simpl; [reflexivity | now rewrite IH].
Qed.

Lemma drop_length_append (a b : string) :
  JSString.drop (String.length a) (a ++ b) = b.
Proof.
  induction a as [|c a IH]; simpl.
  - now destruct b.
  - exact IH.
Qed.

Lemma endsWith_append (a p : string) : JSString.endsWith p (a ++ p) = true.
Proof.
  unfold JSString.endsWith.
  rewrite string_length_append.
  replace (String.length a + String.length p - String.length p)
    with (String.length a) by lia.
  rewrite drop_length_append, String.eqb_refl.
  apply andb_true_iff; split; [apply Nat.leb_le; lia | reflexivity].
Qed.

Lemma append_not_self (a b : string) : b <> EmptyString -> (a ++ b)%string <> a.
Proof.
  intros Hb Heq.
  assert (H : String.length (a ++ b) = String.length a) by now rewrite Heq.
  rewrite string_length_append in H.
  destruct b; [now apply Hb | simpl in H; lia].
Qed.

(* ================================================================= *)
(** ** The filter compiler *)

Section FilterCompiler.

Import PaperFilterOptions.

(** The spec's own example: one macro, one operator, inverted. *)
Example date_macro_single_gt :
  option_map toString
    (create formatString_spec 1613842215000
       (Some (advancedSearch "addTime > [3 DAYS]" None)))
  = Some "addTime < 2021-02-17@17:30:15".
Proof. vm_compute. reflexivity. Qed.

Example date_macro_single_le :
  option_map toString
    (create formatString_spec 1613842215000
       (Some (advancedSearch "addTime <=[3 DAYS]" None)))
  = Some "addTime >=2021-02-17@17:30:15".
Proof. vm_compute. reflexivity. Qed.

Lemma compile_advanced (fmt : string -> string) (now : Z) (s : string) :
  option_map toString (create fmt now (Some (advancedSearch s None)))
  = if JSString.truthy s
    then expandDates now (invertComparisons (fmt s))
    else Some EmptyString.
Proof.
  unfold create, update, searchClauses, advancedSearch; simpl.
  destruct (JSString.truthy s); simpl; [|reflexivity].
  destruct (expandDates now (invertComparisons (fmt s))); simpl; [|reflexivity].
  unfold toString; simpl. reflexivity.
Qed.

Lemma minusDays_in_range (now n : Z) :
  (Z.abs (now - n * JSDate.msPerDay) <= JSDate.maxTime)%Z ->
  JSDate.minusDays now n = Some (now - n * JSDate.msPerDay)%Z.
Proof.
  intros H. unfold JSDate.minusDays.
  apply Z.leb_le in H. rewrite H. reflexivity.
Qed.

(** C1 (the code at the failing input).  In an advanced search where a
    [<] occurs anywhere, the [>] in front of the macro is left as it is:
    the compiled predicate still compares with [>] against the timestamp
    of three days ago. *)
Theorem invert_misses_gt_when_lt_elsewhere :
  forall (fmt : string -> string) (now : Z),
    fmt "addTime > [3 DAYS] AND rating < 4" = "addTime > [3 DAYS] AND rating < 4" ->
    (Z.abs (now - 3 * JSDate.msPerDay) <= JSDate.maxTime)%Z ->
    invertComparisons "addTime > [3 DAYS] AND rating < 4"
      = "addTime > [3 DAYS] AND rating < 4"
    /\ option_map toString
         (create fmt now
            (Some (advancedSearch "addTime > [3 DAYS] AND rating < 4" None)))
       = Some ("addTime > " ++ dateLiteral (now - 3 * JSDate.msPerDay)
                 ++ " AND rating < 4")%string.
Proof.
  intros fmt now Hfmt Hrange.
  assert (Hinv : invertComparisons "addTime > [3 DAYS] AND rating < 4"
                 = "addTime > [3 DAYS] AND rating < 4")
    by (vm_compute; reflexivity).
  split; [exact Hinv|].
  rewrite compile_advanced, Hfmt, Hinv. simpl JSString.truthy. cbv iota.
  unfold expandDates.
  replace (Regex.matchAll dateRegex "addTime > [3 DAYS] AND rating < 4")
    with (Some ["[3 DAYS]"]) by (vm_compute; reflexivity).
  replace (daysOf "[3 DAYS]") with 3%Z by (vm_compute; reflexivity).
  rewrite (minusDays_in_range now 3 Hrange).
  generalize (dateLiteral (now - 3 * JSDate.msPerDay)) as lit; intro lit.
  vm_compute. reflexivity.
Qed.

Lemma invert_misses_gt_witness :
  option_map toString
    (create formatString_spec 1613842215000
       (Some (advancedSearch "addTime > [3 DAYS] AND rating < 4" None)))
  = Some "addTime > 2021-02-17@17:30:15 AND rating < 4".
Proof.
  refine (eq_trans
            (proj2 (invert_misses_gt_when_lt_elsewhere
                      formatString_spec 1613842215000 _ _)) _).
  - vm_compute. reflexivity.
  - vm_compute. discriminate.
  - vm_compute. reflexivity.
Defined.

End FilterCompiler.

Section FilterCompilerDates.

Import PaperFilterOptions.

(** C2 (the code at the failing input).  With two macros of different
    day counts, both are replaced by the timestamp computed from the
    first one: the second macro, of ten days, becomes the timestamp of
    three days ago. *)
Theorem second_macro_takes_first_day_count :
  forall (fmt : string -> string) (now : Z),
    fmt "a == [3 DAYS] OR a == [10 DAYS]" = "a == [3 DAYS] OR a == [10 DAYS]" ->
    (Z.abs (now - 3 * JSDate.msPerDay) <= JSDate.maxTime)%Z ->
    option_map toString
      (create fmt now
         (Some (advancedSearch "a == [3 DAYS] OR a == [10 DAYS]" None)))
    = Some ("a == " ++ dateLiteral (now - 3 * JSDate.msPerDay)
              ++ " OR a == " ++ dateLiteral (now - 3 * JSDate.msPerDay))%string.
Proof.
  intros fmt now Hfmt Hrange.
  rewrite compile_advanced, Hfmt. simpl JSString.truthy. cbv iota.
  replace (invertComparisons "a == [3 DAYS] OR a == [10 DAYS]")
    with "a == [3 DAYS] OR a == [10 DAYS]" by (vm_compute; reflexivity).
  unfold expandDates.
  replace (Regex.matchAll dateRegex "a == [3 DAYS] OR a == [10 DAYS]")
    with (Some ["[3 DAYS]"; "[10 DAYS]"]) by (vm_compute; reflexivity).
  replace (daysOf "[3 DAYS]") with 3%Z by (vm_compute; reflexivity).
  rewrite (minusDays_in_range now 3 Hrange).
  generalize (dateLiteral (now - 3 * JSDate.msPerDay)) as lit; intro lit.
  cbv -[String.append]. simpl. rewrite string_append_empty_r. reflexivity.
Qed.

Lemma second_macro_witness :
  option_map toString
    (create formatString_spec 1613842215000
       (Some (advancedSearch "a == [3 DAYS] OR a == [10 DAYS]" None)))
  = Some "a == 2021-02-17@17:30:15 OR a == 2021-02-17@17:30:15"
  /\ dateLiteral (1613842215000 - 10 * JSDate.msPerDay) = "2021-02-10@17:30:15".
Proof.
  split.
  - refine (eq_trans
              (second_macro_takes_first_day_count
                 formatString_spec 1613842215000 _ _) _).
    + vm_compute. reflexivity.
    + vm_compute. discriminate.
    + vm_compute. reflexivity.
  - vm_compute. reflexivity.
Defined.

(** A single macro is replaced by the timestamp of its own day count. *)
Example date_macro_single_ten :
  option_map toString
    (create formatString_spec 1613842215000
       (Some (advancedSearch "a == [10 DAYS]" None)))
  = Some "a == 2021-02-10@17:30:15".
Proof. vm_compute. reflexivity. Qed.

End FilterCompilerDates.

Section FilterCompilerLimit.

Import PaperFilterOptions.

Lemma limitDirective_not_empty (n : Z) : limitDirective n <> EmptyString.
Proof. unfold limitDirective. simpl. discriminate. Qed.

Lemma limitSet_some (l : option Z) (n : Z) :
  limitSet l = Some n <-> l = Some n /\ n <> 0%Z.
Proof.
  unfold limitSet. destruct l as [m|].
  - destruct (Z.eqb_spec m 0).
    + split; [discriminate | intros [H1 H2]; congruence].
    + split; intros H; [inversion H; subst; auto | destruct H; congruence].
  - split; [discriminate | intros [H _]; discriminate].
Qed.

Lemma limitSet_none (l : option Z) :
  limitSet l = None <-> l = None \/ l = Some 0%Z.
Proof.
  unfold limitSet. destruct l as [m|].
  - destruct (Z.eqb_spec m 0).
    + subst. split; auto.
    + split; [discriminate | intros [H|H]; congruence].
  - split; auto.
Qed.

(** C10 (counterexample).  An advanced search that itself ends in a
    limit directive, compiled with the limit field at 0: the returned
    string ends with [ LIMIT(0)] although the limit is not nonzero. *)
Lemma toString_directive_without_limit :
  exists o : t,
    create formatString_spec 0
      (Some (advancedSearch "flag == true LIMIT(0)" (Some (Some 0%Z)))) = Some o
    /\ limit o = Some 0%Z
    /\ JSString.endsWith (limitDirective 0) (toString o) = true.
Proof.
  eexists. split; [vm_compute; reflexivity|].
  split; vm_compute; reflexivity.
Qed.

(** C10 (amended).  [toString] appends the directive [ LIMIT(n)] to the
    joined clauses exactly when the limit field holds a nonzero [n], and
    then the result ends with it; with the limit at 0 or unset it returns
    the joined clauses alone, so both compile to the same string; with a
    nonzero limit and no clause the result is the directive, led by its
    single space. *)
Theorem toString_limit_directive :
  forall o : t,
    (forall n, limit o = Some n -> n <> 0%Z ->
               toString o = (clausesOf o ++ limitDirective n)%string
               /\ JSString.endsWith (limitDirective n) (toString o) = true)
    /\ (limit o = None \/ limit o = Some 0%Z -> toString o = clausesOf o)
    /\ ((exists n, toString o = (clausesOf o ++ limitDirective n)%string)
        <-> (exists n, limit o = Some n /\ n <> 0%Z))
    /\ toString (withLimit (Some 0%Z) o) = toString (withLimit None o)
    /\ (forall n, limit o = Some n -> n <> 0%Z -> filters o = [] ->
                  toString o = (" LIMIT(" ++ JSString.of_Z n ++ ")")%string).
Proof.
  intros o.
  assert (Hset : forall n, limit o = Some n -> n <> 0%Z ->
                           toString o = (clausesOf o ++ limitDirective n)%string).
  { intros n Hl Hn. unfold toString, clausesOf.
    rewrite (proj2 (limitSet_some (limit o) n) (conj Hl Hn)). reflexivity. }
  assert (Hunset : limit o = None \/ limit o = Some 0%Z -> toString o = clausesOf o).
  { intros H. unfold toString, clausesOf.
    rewrite (proj2 (limitSet_none (limit o)) H). reflexivity. }
  repeat split.
  - now apply Hset.
  - rewrite (Hset n H H0). apply endsWith_append.
  - exact Hunset.
  - intros [n Hn].
    destruct (limitSet (limit o)) as [m|] eqn:E.
    + exists m. now apply limitSet_some.
    + apply limitSet_none in E. rewrite (Hunset E) in Hn.
      symmetry in Hn. apply append_not_self in Hn; [contradiction|].
      apply limitDirective_not_empty.
  - intros [n [Hl Hn]]. exists n. now apply Hset.
  - intros n Hl Hn Hf. rewrite (Hset n Hl Hn).
    unfold clausesOf. rewrite Hf. reflexivity.
Qed.

Lemma toString_limit_directive_witness :
  toString (withLimit (Some 5%Z) fresh) = " LIMIT(5)"
  /\ toString (withLimit (Some 0%Z) fresh) = EmptyString.
Proof.
  split.
  - refine (eq_trans
              (proj2 (proj2 (proj2 (proj2
                 (toString_limit_directive (withLimit (Some 5%Z) fresh)))))
                 5%Z _ _ _) _).
    + reflexivity.
    + discriminate.
    + reflexivity.
    + vm_compute. reflexivity.
  - refine (eq_trans
              (proj1 (proj2
                 (toString_limit_directive (withLimit (Some 0%Z) fresh))) _) _).
    + right. reflexivity.
    + vm_compute. reflexivity.
Defined.

End FilterCompilerLimit.

(* ================================================================= *)
(** ** Memberships *)

Section Memberships.

Import PaperService.

Lemma sameId_refl (c : Categorizer.t) : sameId c c = true.
Proof. unfold sameId. apply String.eqb_refl. Qed.

Lemma sameId_newPaperTag (c : Categorizer.t) : sameId (newPaperTag c) c = true.
Proof. unfold sameId, newPaperTag. simpl. apply String.eqb_refl. Qed.

Lemma sameId_newPaperFolder (c : Categorizer.t) :
  sameId (newPaperFolder c) c = true.
Proof. unfold sameId, newPaperFolder. simpl. apply String.eqb_refl. Qed.

Lemma others_others (c : Categorizer.t) (ms : list Categorizer.t) :
  others c (others c ms) = others c ms.
Proof.
  unfold others. induction ms as [|m ms IH]; simpl; [reflexivity|].
  destruct (sameId m c) eqn:E; simpl; [exact IH|].
  rewrite E. simpl. now rewrite IH.
Qed.

Lemma membershipsOf_others (c : Categorizer.t) (ms : list Categorizer.t) :
  membershipsOf c (others c ms) = 0.
Proof.
  unfold membershipsOf, others. induction ms as [|m ms IH]; simpl; [reflexivity|].
  destruct (sameId m c) eqn:E; simpl; [exact IH|].
  rewrite E. exact IH.
Qed.

Lemma membershipsOf_app (c : Categorizer.t) (xs ys : list Categorizer.t) :
  membershipsOf c (xs ++ ys) = membershipsOf c xs + membershipsOf c ys.
Proof. unfold membershipsOf. now rewrite filter_app, length_app. Qed.

Lemma others_app (c : Categorizer.t) (xs ys : list Categorizer.t) :
  others c (xs ++ ys) = others c xs ++ others c ys.
Proof. unfold others. apply filter_app. Qed.

(** What [withCategorizer] leaves in the list of its kind. *)
Lemma membershipsIn_withCategorizer
  (type : CategorizerType.t) (c : Categorizer.t) (d : PaperEntity.t) :
  exists m, sameId m c = true
            /\ membershipsIn type (withCategorizer type c d)
               = others c (membershipsIn type d) ++ [m].
Proof.
  destruct type; simpl.
  - exists (newPaperTag c). split; [apply sameId_newPaperTag | reflexivity].
  - exists (newPaperFolder c). split; [apply sameId_newPaperFolder | reflexivity].
Qed.

(** C8.  The membership mutation of [updateWithCategorizer] is an upsert:
    applied twice it gives what it gives applied once; the draft then
    holds exactly one membership with the categorizer's identity; the
    memberships of other identities are kept as they were, in order; the
    memberships of the other kind are not touched. *)
Theorem withCategorizer_upsert :
  forall (type : CategorizerType.t) (c : Categorizer.t) (d : PaperEntity.t),
    withCategorizer type c (withCategorizer type c d) = withCategorizer type c d
    /\ membershipsOf c (membershipsIn type (withCategorizer type c d)) = 1
    /\ membershipsOf c
         (membershipsIn type (withCategorizer type c (withCategorizer type c d))) = 1
    /\ others c (membershipsIn type (withCategorizer type c d))
       = others c (membershipsIn type d)
    /\ membershipsIn (otherType type) (withCategorizer type c d)
       = membershipsIn (otherType type) d.
Proof.
  intros type c d.
  assert (Hone : forall d', membershipsOf c
                   (membershipsIn type (withCategorizer type c d')) = 1).
  { intros d'. destruct (membershipsIn_withCategorizer type c d') as [m [Hm ->]].
    rewrite membershipsOf_app, membershipsOf_others.
    unfold membershipsOf. simpl. now rewrite Hm. }
  assert (Hidem : withCategorizer type c (withCategorizer type c d)
                  = withCategorizer type c d).
  { destruct type; unfold withCategorizer; simpl;
      unfold PaperEntity.set_tags, PaperEntity.set_folders; simpl; f_equal;
      rewrite filter_app; simpl.
    - rewrite sameId_newPaperTag. simpl. rewrite app_nil_r.
      fold (others c (PaperEntity.tags d)).
      fold (others c (others c (PaperEntity.tags d))).
      now rewrite others_others.
    - rewrite sameId_newPaperFolder. simpl. rewrite app_nil_r.
      fold (others c (PaperEntity.folders d)).
      fold (others c (others c (PaperEntity.folders d))).
      now rewrite others_others. }
  split; [exact Hidem|].
  split; [apply Hone|].
  split; [apply Hone|].
  split.
  - destruct (membershipsIn_withCategorizer type c d) as [m [Hm ->]].
    rewrite others_app, others_others.
    unfold others at 2. simpl. rewrite Hm. simpl. apply app_nil_r.
  - destruct type; reflexivity.
Qed.

(** C4 (the code at the failing input).  Whatever the kind asked for and
    whatever the truthiness of the enum member, [createIntoCategorizer]'s
    callback never installs a folder membership: asked for a folder, it
    leaves the folders as they were and, the enum member being a
    non-empty string, replaces the tags instead. *)
Theorem intoCategorizer_folder_unreachable :
  forall (tagTruthy : bool) (c : Categorizer.t) (d : PaperEntity.t),
    PaperEntity.folders (intoCategorizer tagTruthy CategorizerType.PaperFolder c d)
    = PaperEntity.folders d
    /\ PaperEntity.tags (intoCategorizer true CategorizerType.PaperFolder c d)
       = [newPaperTag c]
    /\ intoCategorizer false CategorizerType.PaperFolder c d = d.
Proof.
  intros tagTruthy c d. unfold intoCategorizer.
  destruct tagTruthy; simpl; repeat split.
Qed.

(** The kind [PaperTag]: the tags are replaced by the single new one and
    the folders are kept. *)
Lemma intoCategorizer_tag (c : Categorizer.t) (d : PaperEntity.t) :
  PaperEntity.tags (intoCategorizer true CategorizerType.PaperTag c d)
  = [newPaperTag c]
  /\ PaperEntity.folders (intoCategorizer true CategorizerType.PaperTag c d)
     = PaperEntity.folders d.
Proof. split; reflexivity. Qed.

Example intoCategorizer_folder_example :
  let old := Categorizer.mk "7" "inbox" "blue" in
  let c := Categorizer.mk "9" "thesis" "red" in
  let d := PaperEntity.mk "p1" "A" EmptyString "a.pdf" [] [old] [old] in
  let d' := intoCategorizer true CategorizerType.PaperFolder c d in
  PaperEntity.tags d' = [c] /\ PaperEntity.folders d' = [old].
Proof. split; reflexivity. Qed.

End Memberships.

(* ================================================================= *)
(** ** Runs of the service *)

Section Runs.

Context {W : Type}.

Lemma bind_inv {A B} (m : M W A) (f : A -> M W B) w o w2 tr :
  Async.bind m f w = (o, w2, tr) ->
  (exists a w1 t1 t2,
      m w = (Ret a, w1, t1) /\ f a w1 = (o, w2, t2) /\ tr = t1 ++ t2)
  \/ (o = Throw /\ m w = (Throw, w2, tr)).
Proof.
  unfold Async.bind. destruct (m w) as [[[a|] w1] t1].
  - destruct (f a w1) as [[o' w2'] t2] eqn:E.
    intros H; inversion H; subst. left. exists a, w1, t1, t2. auto.
  - intros H; inversion H; subst. right. auto.
Qed.

Lemma bind_run {A B} (m : M W A) (f : A -> M W B) w a w1 t1 o w2 t2 :
  m w = (Ret a, w1, t1) -> f a w1 = (o, w2, t2) ->
  Async.bind m f w = (o, w2, t1 ++ t2).
Proof. unfold Async.bind. intros -> ->. reflexivity. Qed.

Lemma bind_throw {A B} (m : M W A) (f : A -> M W B) w w1 t1 :
  m w = (Throw, w1, t1) -> Async.bind m f w = (Throw, w1, t1).
Proof. unfold Async.bind. intros ->. reflexivity. Qed.

Lemma errorcatching_inv {A} msg (dflt : A) (m : M W A) w o w1 tr :
  errorcatching msg dflt m w = (o, w1, tr) ->
  (exists a, o = Ret a /\ m w = (Ret a, w1, tr))
  \/ (exists t1, o = Ret dflt /\ m w = (Throw, w1, t1)
                 /\ tr = t1 ++ [EvLog Error msg EmptyString]).
Proof.
  unfold errorcatching. destruct (m w) as [[[a|] w'] t1];
    intros H; inversion H; subst.
  - left. eauto.
  - right. eauto.
Qed.

Lemma bind_read {A B} (f : W -> A) (k : A -> M W B) (w : W) :
  Async.bind (Async.read f) k w = k (f w) w.
Proof.
  unfold Async.bind, Async.read. destruct (k (f w) w) as [[o w2] t2]. reflexivity.
Qed.

Variable env : Env W.
Import PaperService.

Lemma moveWorker_run (d : PaperEntity.t) (w : W) :
  exists d1 o w1 t1,
    moveWorker env d w = (Ret (d1, o), w1, t1)
    /\ filter isCore t1 = []
    /\ (d1 = d \/ d1 = PaperEntity.set_mainURL EmptyString d)
    /\ (forall r, o = Ret r ->
                  exists cut w0, fst (file_move env d1 cut None w0) = Ret r).
Proof.
  unfold moveWorker, Async.bind, Async.attempt, Async.call, Async.read,
    Async.ret, Async.log.
  destruct (file_access env (PaperEntity.mainURL d) w) as [[ok|] w1].
  - destruct (negb ok && JSString.truthy (PaperEntity.mainURL d));
      match goal with
      | |- context [file_move env ?d1 ?c ?n ?w0] =>
          destruct (file_move env d1 c n w0) as [r w2] eqn:Em
      end; do 4 eexists;
      (split; [reflexivity|]); (split; [reflexivity|]);
      (split; [auto|]); intros r' Hr; subst r;
      do 2 eexists; rewrite Em; reflexivity.
  - do 4 eexists. split; [reflexivity|]. split; [reflexivity|].
    split; [auto|]. intros r Hr. discriminate Hr.
Qed.

Lemma chunk_stage (ds : list PaperEntity.t) (w : W) :
  exists rs errs w1 t1,
    chunkRun (moveWorker env) (fun d => Async.ret (Some d)) ds w
    = (Ret (rs, errs), w1, t1)
    /\ filter isCore t1 = [] /\ List.length rs = List.length ds
    /\ Forall2 (relocationOf env) ds rs.
Proof.
  revert w. induction ds as [|d ds IH]; intros w.
  - exists [], [], w, []. repeat split. constructor.
  - destruct (moveWorker_run d w) as (d1 & o & w1 & t1 & E1 & C1 & D1 & M1).
    destruct (IH w1) as (rs & errs & w2 & t2 & E2 & C2 & L2 & A2).
    cbn [chunkRun].
    destruct o as [r|].
    + exists (r :: rs), ([] ++ errs), w2, (t1 ++ [] ++ t2 ++ []).
      split; [|split; [|split]].
      * eapply bind_run; [exact E1|]. cbn [fst snd].
        eapply bind_run; [reflexivity|].
        eapply bind_run; [exact E2|]. reflexivity.
      * rewrite !filter_app, C1, C2. reflexivity.
      * simpl. now rewrite L2.
      * constructor; [|exact A2].
        destruct (M1 r eq_refl) as (cut & w0 & Hm).
        right. right. exists d1, cut, w0. split; assumption.
    + exists (Some d1 :: rs), ([d1] ++ errs), w2, (t1 ++ ([] ++ []) ++ t2 ++ []).
      split; [|split; [|split]].
      * eapply bind_run; [exact E1|]. cbn [fst snd].
        eapply bind_run; [eapply bind_run; reflexivity|].
        eapply bind_run; [exact E2|]. reflexivity.
      * rewrite !filter_app, C1, C2. reflexivity.
      * simpl. now rewrite L2.
      * constructor; [|exact A2].
        destruct D1 as [->| ->]; [left | right; left]; reflexivity.
Qed.

(** The file stage keeps the positions of the input: its i-th result comes
    from the i-th draft. *)
Lemma fileStage_aligned (ds : list PaperEntity.t) (w : W) :
  Forall2 (relocationOf env) ds (fileStageResults env ds w).
Proof.
  destruct (chunk_stage ds w) as (rs & errs & w1 & t1 & E & _ & _ & A).
  unfold fileStageResults. rewrite E. exact A.
Qed.

Lemma logEach_run {A} (msg : string) (xs : list A) (w : W) :
  exists us t1,
    Async.forEach (fun _ : A => Async.log Error msg EmptyString) xs w
    = (Ret us, w, t1) /\ filter isCore t1 = [].
Proof.
  induction xs as [|x xs IH].
  - exists [], []. split; reflexivity.
  - destruct IH as (us & t1 & E & C).
    exists (tt :: us), ([EvLog Error msg EmptyString] ++ t1 ++ []). split.
    + cbn [Async.forEach].
      eapply bind_run; [reflexivity|].
      eapply bind_run; [exact E|]. reflexivity.
    + rewrite !filter_app, C. reflexivity.
Qed.

Lemma normalizeAll_ret (rs : list (option PaperEntity.t)) (ns : list PaperEntity.t) :
  normalizeAll rs = Ret ns ->
  exists d0s, rs = map Some d0s /\ ns = map normalizePaths d0s.
Proof.
  revert ns. induction rs as [|r rs IH]; intros ns H.
  - inversion H; subst. exists []. split; reflexivity.
  - destruct r as [d|]; simpl in H; [|discriminate].
    destruct (normalizeAll rs) as [ns'|]; [|discriminate].
    inversion H; subst.
    destruct (IH ns' eq_refl) as (d0s & -> & ->).
    exists (d :: d0s). split; reflexivity.
Qed.

Lemma persistOne_run (d : PaperEntity.t) (w : W) :
  exists o w1 t1,
    persistOne env d w = (Ret (verdict (d, o)), w1, t1)
    /\ filter isCore t1 = [writeEv (d, o)].
Proof.
  unfold persistOne, Async.bind, Async.attempt, Async.call, Async.read,
    Async.ret, Async.log.
  destruct (repo_update env d (getPartition env w) w) as [[[|]|] w1].
  - exists (Ret true), w1. eexists. split; reflexivity.
  - exists (Ret false), w1. eexists. split; reflexivity.
  - exists Throw, w1. eexists. split; reflexivity.
Qed.

Lemma persist_stage (ds : list PaperEntity.t) (w : W) :
  exists wr w1 t1,
    Async.forEach (persistOne env) ds w = (Ret (map verdict wr), w1, t1)
    /\ map fst wr = ds /\ filter isCore t1 = map writeEv wr.
Proof.
  revert w. induction ds as [|d ds IH]; intros w.
  - exists [], w, []. repeat split.
  - destruct (persistOne_run d w) as (o & w1 & t1 & E1 & C1).
    destruct (IH w1) as (wr & w2 & t2 & E2 & F2 & C2).
    exists ((d, o) :: wr), w2, (t1 ++ t2 ++ []). split; [|split].
    + cbn [Async.forEach].
      eapply bind_run; [exact E1|].
      eapply bind_run; [exact E2|]. reflexivity.
    + simpl. now rewrite F2.
    + rewrite !filter_app, C1, C2. cbn [filter app map].
      now rewrite app_nil_r.
Qed.

Lemma reconcile_stage (wr : list (PaperEntity.t * Outcome bool)) (w : W) :
  exists us w1 t1,
    Async.forEach (reconcileOne env) (combine (map fst wr) (map verdict wr)) w
    = (Ret us, w1, t1)
    /\ filter isCore t1 = map EvFileRemove (rejectedOf wr).
Proof.
  revert w. induction wr as [|[d o] wr IH]; intros w.
  - exists [], w, []. split; reflexivity.
  - cbn [map combine fst Async.forEach].
    unfold verdict at 1, rejectedOf. cbn [fst snd flat_map].
    fold (rejectedOf wr).
    destruct (accepted o).
    + destruct (IH w) as (us & w1 & t1 & E & C).
      exists (tt :: us), w1, ([] ++ t1 ++ []). split.
      * eapply bind_run.
        { unfold reconcileOne. cbn [fst snd].
          rewrite String.eqb_refl. reflexivity. }
        eapply bind_run; [exact E|]. reflexivity.
      * rewrite !filter_app, C. cbn [filter app map]. now rewrite app_nil_r.
    + destruct (IH (file_remove env d w)) as (us & w1 & t1 & E & C).
      exists (tt :: us), w1, ([EvFileRemove d] ++ t1 ++ []). split.
      * eapply bind_run; [reflexivity|].
        eapply bind_run; [exact E|]. reflexivity.
      * rewrite !filter_app, C. cbn [filter app map isCore].
        now rewrite app_nil_r.
Qed.

Lemma nonNull_verdict (wr : list (PaperEntity.t * Outcome bool)) :
  nonNull (map verdict wr) = keptOf wr.
Proof.
  unfold nonNull, keptOf. induction wr as [|[d o] wr IH]; simpl; [reflexivity|].
  unfold verdict at 1. simpl. destruct (accepted o); simpl; now rewrite IH.
Qed.

(** The shape of every run of [update]. *)
Lemma update_run (ds : list PaperEntity.t) (w : W) :
  exists d0s wr w1 tr,
    update env ds w = (Ret (keptOf wr), w1, tr)
    /\ filter isCore tr = map writeEv wr ++ map EvFileRemove (rejectedOf wr)
    /\ map fst wr = map normalizePaths d0s
    /\ (wr = [] \/ (List.length d0s = List.length ds
                    /\ fileStageResults env ds w = map Some d0s)).
Proof.
  unfold update, update_body.
  destruct (dbInitializing env w) eqn:Hinit.
  - exists [], [], w, []. split; [|repeat split; auto].
    unfold errorcatching, Async.bind, initializing, Async.read.
    rewrite Hinit. reflexivity.
  - destruct (chunk_stage ds w) as (rs & errs & w1 & t1 & E1 & C1 & L1 & _).
    destruct (logEach_run "Failed to move file." errs w1) as (us & t2 & E2 & C2).
    destruct (normalizeAll rs) as [ns|] eqn:Hnorm.
    + destruct (normalizeAll_ret rs ns Hnorm) as (d0s & -> & ->).
      destruct (realm env w1) as [[u|] w2] eqn:Hrealm.
      * destruct (persist_stage (map normalizePaths d0s) w2)
          as (wr & w3 & t3 & E3 & F3 & C3).
        destruct (reconcile_stage wr w3) as (us' & w4 & t4 & E4 & C4).
        exists d0s, wr. do 2 eexists. split; [|split; [|split]].
        -- unfold errorcatching.
           erewrite bind_run;
             [ | unfold initializing, Async.read; rewrite Hinit; reflexivity | ].
           2:{ eapply bind_run; [reflexivity|].
               eapply bind_run; [exact E1|].
               eapply bind_run; [exact E2|].
               cbn [fst]. rewrite Hnorm.
               eapply bind_run;
                 [unfold getRealm, Async.call; rewrite Hrealm; reflexivity|].
               eapply bind_run; [exact E3|].
               eapply bind_run; [rewrite <- F3; exact E4|].
               eapply bind_run; [reflexivity|].
               rewrite nonNull_verdict. reflexivity. }
           reflexivity.
        -- rewrite !filter_app, C1, C2, C3, C4. simpl. now rewrite app_nil_r.
        -- exact F3.
        -- right. rewrite length_map in L1. split; [exact L1|].
           unfold fileStageResults. rewrite E1. reflexivity.
      * exists [], []. do 2 eexists. split; [|split; [|split]].
        -- unfold errorcatching.
           erewrite bind_run;
             [ | unfold initializing, Async.read; rewrite Hinit; reflexivity | ].
           2:{ eapply bind_run; [reflexivity|].
               eapply bind_run; [exact E1|].
               eapply bind_run; [exact E2|].
               cbn [fst]. rewrite Hnorm.
               eapply bind_throw.
               unfold getRealm, Async.call; rewrite Hrealm; reflexivity. }
           reflexivity.
        -- rewrite !filter_app, C1, C2. reflexivity.
        -- reflexivity.
        -- left. reflexivity.
    + exists [], []. do 2 eexists. split; [|split; [|split]].
      * unfold errorcatching.
        erewrite bind_run;
          [ | unfold initializing, Async.read; rewrite Hinit; reflexivity | ].
        2:{ eapply bind_run; [reflexivity|].
            eapply bind_run; [exact E1|].
            eapply bind_run; [exact E2|].
            cbn [fst]. rewrite Hnorm. reflexivity. }
        reflexivity.
      * rewrite !filter_app, C1, C2. reflexivity.
      * reflexivity.
      * left. reflexivity.
Qed.

Lemma guard_run {A} (dflt : A) (msg : string) (k : M W A) (w : W) :
  dbInitializing env w = true ->
  errorcatching msg dflt
    (init <- initializing env ;; if init : bool then Async.ret dflt else k) w
  = (Ret dflt, w, []).
Proof.
  intros H. unfold errorcatching, Async.bind, initializing, Async.read.
  rewrite H. reflexivity.
Qed.

(** The operations that test the store's state first do nothing while it
    is initializing. *)
Lemma guarded_operations_noop (w : W) :
  dbInitializing env w = true ->
  (forall q sb so ft, load env q sb so ft w = (Ret [], w, []))
  /\ (forall ids, loadByIds env ids w = (Ret [], w, []))
  /\ (forall ds, update env ds w = (Ret [], w, []))
  /\ (forall ids c ty, updateWithCategorizer env ids c ty w = (Ret tt, w, []))
  /\ (forall ids ps, delete env ids ps w = (Ret tt, w, []))
  /\ (forall b urls c ty, createIntoCategorizer env b urls c ty w = (Ret [], w, []))
  /\ (forall ds sc, scrape env ds sc w = (Ret tt, w, []))
  /\ scrapePreprint env w = (Ret tt, w, [])
  /\ renameAll env w = (Ret tt, w, []).
Proof.
  intros H. repeat split; intros; now apply guard_run.
Qed.

Lemma scrape_run (ds : list PaperEntity.t) (w : W) :
  exists w1 tr,
    scrape env ds None w = (Ret tt, w1, tr)
    /\ (dbInitializing env w = false ->
        In (EvScrape (map PayloadEntity ds) [] false) tr).
Proof.
  destruct (dbInitializing env w) eqn:Hinit.
  { exists w, []. split; [|discriminate].
    unfold scrape. now apply guard_run. }
  unfold scrape.
  destruct (scrape_scrape env (map PayloadEntity ds) [] false w)
    as [[ds'|] w1] eqn:Es.
  - destruct (update_run ds' w1) as (d0s & wr & w2 & t2 & E2 & _).
    do 2 eexists. split.
    + unfold errorcatching.
      erewrite bind_run;
        [ | unfold initializing, Async.read; rewrite Hinit; reflexivity | ].
      2:{ eapply bind_run; [reflexivity|].
          eapply bind_run; [unfold Async.call; rewrite Es; reflexivity|].
          eapply bind_run; [exact E2|]. reflexivity. }
      reflexivity.
    + intros _. simpl. right. left. reflexivity.
  - do 2 eexists. split.
    + unfold errorcatching.
      erewrite bind_run;
        [ | unfold initializing, Async.read; rewrite Hinit; reflexivity | ].
      2:{ eapply bind_run; [reflexivity|].
          eapply bind_throw. unfold Async.call; rewrite Es; reflexivity. }
      reflexivity.
    + intros _. simpl. right. left. reflexivity.
Qed.

Lemma scrapePreprint_skip (w : W) :
  (nowSeconds (date_now env w) - pref_lastRematchTime env w
   < rematchPeriod - rematchTolerance)%Z ->
  scrapePreprint env w = (Ret tt, w, []).
Proof.
  intros H. apply Z.ltb_lt in H.
  unfold scrapePreprint, errorcatching, Async.bind, initializing, Async.read.
  destruct (dbInitializing env w); [reflexivity|].
  destruct (pref_allowRoutineMatch env w); [|reflexivity].
  rewrite H. reflexivity.
Qed.

Lemma scrapePreprint_stamp (w : W) (t : Z) :
  In (EvPrefSetLastRematchTime t) (traceOf (scrapePreprint env w)) ->
  (rematchPeriod - rematchTolerance
   <= nowSeconds (date_now env w) - pref_lastRematchTime env w)%Z
  /\ exists pre wb,
      traceOf (scrapePreprint env w)
      = pre ++ [EvPrefSetLastRematchTime (nowSeconds (date_now env wb))]
      /\ worldOf (scrapePreprint env w)
         = pref_set_lastRematchTime env (nowSeconds (date_now env wb)) wb
      /\ In (EvRepoLoad preprintQuery "addTime" "desc") pre
      /\ (keepsReady env ->
          exists payloads, In (EvScrape payloads [] false) pre).
Proof.
  destruct (dbInitializing env w) eqn:Hinit.
  { rewrite (proj1 (proj2 (proj2 (proj2 (proj2 (proj2 (proj2 (proj2
              (guarded_operations_noop w Hinit))))))))). simpl. tauto. }
  destruct (pref_allowRoutineMatch env w) eqn:Hallow.
  2:{ unfold scrapePreprint, errorcatching, Async.bind, initializing, Async.read.
      rewrite Hinit, Hallow. simpl. tauto. }
  destruct (Z.ltb_spec (nowSeconds (date_now env w) - pref_lastRematchTime env w)
              (rematchPeriod - rematchTolerance)) as [Hlt|Hge].
  { rewrite (scrapePreprint_skip w Hlt). simpl. tauto. }
  assert (Hnlt : (nowSeconds (date_now env w) - pref_lastRematchTime env w
                  <? rematchPeriod - rematchTolerance)%Z = false)
    by (apply Z.ltb_ge; exact Hge).
  unfold scrapePreprint, initializing.
  assert (Hbody : forall k : M W unit,
    (init <- Async.read (dbInitializing env) ;;
     if init : bool then Async.ret tt else
     allow <- Async.read (pref_allowRoutineMatch env) ;;
     if allow : bool then
       now <- Async.read (fun w => nowSeconds (date_now env w)) ;;
       last <- Async.read (pref_lastRematchTime env) ;;
       if (now - last <? rematchPeriod - rematchTolerance)%Z
       then Async.ret tt else k
     else Async.ret tt) w = k w).
  { intros k. rewrite bind_read, Hinit. rewrite bind_read, Hallow.
    rewrite bind_read. rewrite bind_read. rewrite Hnlt. reflexivity. }
  unfold errorcatching. rewrite Hbody. clear Hbody.
  destruct (realm env w) as [[u|] w1] eqn:Er.
  2:{ erewrite bind_run; [ | reflexivity | ].
      2:{ eapply bind_throw. unfold getRealm, Async.call. rewrite Er. reflexivity. }
      simpl. intros [H|[H|[H|[]]]]; discriminate. }
  destruct (repo_load env preprintQuery "addTime" "desc" w1) as [[pre|] w2] eqn:El.
  2:{ erewrite bind_run; [ | reflexivity | ].
      2:{ eapply bind_run;
            [unfold getRealm, Async.call; rewrite Er; reflexivity|].
          eapply bind_throw. unfold Async.call. rewrite El. reflexivity. }
      simpl. intros [H|[H|[H|[H|[]]]]]; discriminate. }
  destruct (scrape_run (map PaperEntity.clone pre) w2) as (w3 & ts & Es & Hin).
  erewrite bind_run; [ | reflexivity | ].
  2:{ eapply bind_run; [unfold getRealm, Async.call; rewrite Er; reflexivity|].
      eapply bind_run; [unfold Async.call; rewrite El; reflexivity|].
      eapply bind_run; [exact Es|].
      eapply bind_run; reflexivity. }
  intros _. split; [exact Hge|].
  exists ([EvLog Info "Scraping metadata of preprint paper(s)..." EmptyString]
            ++ [EvRealm] ++ [EvRepoLoad preprintQuery "addTime" "desc"] ++ ts),
    w3.
  unfold traceOf, worldOf. cbn [fst snd].
  split; [reflexivity|]. split; [reflexivity|]. split; [simpl; auto|].
  intros [Hrealm Hload].
  exists (map PayloadEntity (map PaperEntity.clone pre)).
  assert (Hi1 : dbInitializing env w1 = false).
  { specialize (Hrealm w). rewrite Er in Hrealm. simpl in Hrealm. congruence. }
  assert (Hi2 : dbInitializing env w2 = false).
  { specialize (Hload preprintQuery "addTime" "desc" w1).
    rewrite El in Hload. simpl in Hload. congruence. }
  simpl. right. right. right. exact (Hin Hi2).
Qed.

Lemma flat_map_core {B} (f : Event -> list B) (tr : Trace) :
  (forall ev, isCore ev = false -> f ev = []) ->
  flat_map f (filter isCore tr) = flat_map f tr.
Proof.
  intros H. induction tr as [|ev tr IH]; simpl; [reflexivity|].
  destruct (isCore ev) eqn:E; simpl; rewrite IH; [reflexivity|].
  now rewrite (H ev E).
Qed.

Lemma writesOf_core (tr : Trace) : writesOf (filter isCore tr) = writesOf tr.
Proof. apply flat_map_core. intros []; simpl; intros; congruence. Qed.

Lemma persisted_core (tr : Trace) : persisted (filter isCore tr) = persisted tr.
Proof. apply flat_map_core. intros []; simpl; intros; congruence. Qed.

Lemma failedWrites_core (tr : Trace) :
  failedWrites (filter isCore tr) = failedWrites tr.
Proof. apply flat_map_core. intros []; simpl; intros; congruence. Qed.

Lemma removals_core (tr : Trace) : removals (filter isCore tr) = removals tr.
Proof. apply flat_map_core. intros []; simpl; intros; congruence. Qed.

Lemma projections_of_removals (ds : list PaperEntity.t) :
  writesOf (map EvFileRemove ds) = []
  /\ persisted (map EvFileRemove ds) = []
  /\ failedWrites (map EvFileRemove ds) = []
  /\ removals (map EvFileRemove ds) = ds.
Proof.
  induction ds as [|d ds (H1 & H2 & H3 & H4)]; [repeat split|].
  unfold writesOf, persisted, failedWrites, removals in *. simpl.
  rewrite H1, H2, H3, H4. repeat split.
Qed.

Lemma projections_of_core (wr : list (PaperEntity.t * Outcome bool))
  (ds : list PaperEntity.t) :
  writesOf (map writeEv wr ++ map EvFileRemove ds) = wr
  /\ persisted (map writeEv wr ++ map EvFileRemove ds) = keptOf wr
  /\ failedWrites (map writeEv wr ++ map EvFileRemove ds) = rejectedOf wr
  /\ removals (map writeEv wr ++ map EvFileRemove ds) = ds.
Proof.
  induction wr as [|[d o] wr (H1 & H2 & H3 & H4)].
  - exact (projections_of_removals ds).
  - unfold writesOf, persisted, failedWrites, removals, keptOf, rejectedOf in *.
    simpl. rewrite H1, H2, H3, H4.
    destruct (accepted o); repeat split.
Qed.


(* ---------------------------------------------------------- *)
(** *** Paths *)

Lemma untilSlash_no_slash (cs : list ascii) :
  Forall (fun c => Ascii.eqb c Path.slash = false) (Path.untilSlash cs).
Proof.
  induction cs as [|c cs IH]; simpl; [constructor|].
  destruct (Ascii.eqb c Path.slash) eqn:E; [constructor|].
  constructor; assumption.
Qed.

Lemma isAbsolute_of_list (cs : list ascii) :
  Path.isAbsolute (string_of_list_ascii cs)
  = match cs with c :: _ => Ascii.eqb c Path.slash | [] => false end.
Proof. destruct cs; reflexivity. Qed.

Lemma basename_not_absolute (p : string) :
  Path.isAbsolute (Path.basename p) = false.
Proof.
  unfold Path.basename. rewrite isAbsolute_of_list.
  pose proof (untilSlash_no_slash
                (Path.dropSlashes (rev (list_ascii_of_string p)))) as H.
  apply Forall_rev in H.
  destruct (rev (Path.untilSlash
                   (Path.dropSlashes (rev (list_ascii_of_string p)))));
    [reflexivity|].
  now inversion H.
Qed.

Lemma normalizePaths_spec (d0 : PaperEntity.t) :
  let d := normalizePaths d0 in
  PaperEntity.mainURL d
  = (if Path.isAbsolute (PaperEntity.mainURL d0) then EmptyString
     else Path.basename (PaperEntity.mainURL d0))
  /\ PaperEntity.supURLs d
     = filter (fun url => negb (Path.isAbsolute url)) (PaperEntity.supURLs d0)
  /\ Path.isAbsolute (PaperEntity.mainURL d) = false
  /\ Forall (fun url => Path.isAbsolute url = false) (PaperEntity.supURLs d).
Proof.
  cbv zeta. unfold normalizePaths.
  assert (Ht : JSString.truthy (PaperEntity.mainURL d0)
               && Path.isAbsolute (PaperEntity.mainURL d0)
               = Path.isAbsolute (PaperEntity.mainURL d0)).
  { destruct (PaperEntity.mainURL d0); reflexivity. }
  rewrite Ht.
  destruct (Path.isAbsolute (PaperEntity.mainURL d0)) eqn:E; simpl;
    (split; [reflexivity|]); (split; [reflexivity|]);
    (split; [try reflexivity; apply basename_not_absolute|]);
    apply Forall_forall; intros u Hu; apply filter_In in Hu;
    destruct Hu as [_ Hu]; now apply negb_true_iff in Hu.
Qed.

Lemma keptOf_incl (wr : list (PaperEntity.t * Outcome bool)) (d : PaperEntity.t) :
  In d (keptOf wr) -> In d (map fst wr).
Proof.
  unfold keptOf. induction wr as [|[d' o] wr IH]; simpl; [tauto|].
  intros H. apply in_app_or in H. destruct H as [H|H]; [|right; auto].
  destruct (accepted o); simpl in H; [|tauto].
  destruct H as [H|[]]. left. exact H.
Qed.

(* ---------------------------------------------------------- *)
(** *** The properties of [update] *)

(** C5.  [update] returns exactly the drafts whose write the store
    accepted, in the order of the writes, which is the order of the input:
    unless the call stops before the database stage (then nothing is
    written and the result is empty), the store is asked once per input
    draft, the i-th write being on the path-normalized i-th result of the
    file stage, which comes from the i-th input draft.  A draft whose write
    answered [false] or threw is not in the result.  The result is a list
    of drafts: it holds no [null]. *)
Theorem update_returns_persisted :
  forall (ds : list PaperEntity.t) (w : W),
    outcomeOf (update env ds w) = Ret (persisted (traceOf (update env ds w)))
    /\ persisted (traceOf (update env ds w))
       = keptOf (writesOf (traceOf (update env ds w)))
    /\ (writesOf (traceOf (update env ds w)) = []
        \/ exists d0s,
            fileStageResults env ds w = map Some d0s
            /\ map fst (writesOf (traceOf (update env ds w)))
               = map normalizePaths d0s
            /\ List.length (writesOf (traceOf (update env ds w)))
               = List.length ds)
    /\ Forall2 (relocationOf env) ds (fileStageResults env ds w).
Proof.
  intros ds w.
  destruct (update_run ds w) as (d0s & wr & w1 & tr & E & C & F & L).
  rewrite E. unfold outcomeOf, traceOf. cbn [fst snd].
  destruct (projections_of_core wr (rejectedOf wr)) as (P1 & P2 & _ & _).
  rewrite <- C, writesOf_core in P1. rewrite <- C, persisted_core in P2.
  rewrite P1, P2. split; [reflexivity|]. split; [reflexivity|].
  split; [|apply fileStage_aligned].
  destruct L as [L|[L S]]; [left; exact L|right].
  exists d0s. split; [exact S|]. split; [exact F|].
  rewrite <- L, <- (length_map normalizePaths d0s), <- F. now rewrite length_map.
Qed.

(** C6.  In one call of [update], the file collaborator's [remove] is
    invoked on exactly the drafts whose write failed, once each and in
    order, after the writes; a draft the store accepted is not removed. *)
Theorem failed_writes_are_removed :
  forall (ds : list PaperEntity.t) (w : W),
    removals (traceOf (update env ds w)) = failedWrites (traceOf (update env ds w))
    /\ filter isCore (traceOf (update env ds w))
       = map writeEv (writesOf (traceOf (update env ds w)))
           ++ map EvFileRemove (failedWrites (traceOf (update env ds w))).
Proof.
  intros ds w.
  destruct (update_run ds w) as (d0s & wr & w1 & tr & E & C & _).
  rewrite E. unfold traceOf. cbn [snd].
  destruct (projections_of_core wr (rejectedOf wr)) as (P1 & _ & P3 & P4).
  rewrite <- C, writesOf_core in P1. rewrite <- C, failedWrites_core in P3.
  rewrite <- C, removals_core in P4.
  rewrite P1, P3, P4. split; [reflexivity | exact C].
Qed.

(** C7.  Every draft that [update] hands to the store or returns is the
    path normalization of a draft the file stage produced: its primary
    reference is the empty string where that draft's was still absolute
    and its base name otherwise, so it is never absolute; its
    supplementary references are that draft's without the absolute
    ones. *)
Theorem update_paths_normalized :
  forall (ds : list PaperEntity.t) (w : W) (d : PaperEntity.t),
    In d (map fst (writesOf (traceOf (update env ds w))))
    \/ (exists r, outcomeOf (update env ds w) = Ret r /\ In d r) ->
    exists d0,
      In (Some d0) (fileStageResults env ds w)
      /\ d = normalizePaths d0
      /\ PaperEntity.mainURL d
         = (if Path.isAbsolute (PaperEntity.mainURL d0) then EmptyString
            else Path.basename (PaperEntity.mainURL d0))
      /\ PaperEntity.supURLs d
         = filter (fun url => negb (Path.isAbsolute url)) (PaperEntity.supURLs d0)
      /\ Path.isAbsolute (PaperEntity.mainURL d) = false
      /\ Forall (fun url => Path.isAbsolute url = false) (PaperEntity.supURLs d).
Proof.
  intros ds w d.
  destruct (update_run ds w) as (d0s & wr & w1 & tr & E & C & F & L).
  rewrite E. unfold outcomeOf, traceOf. cbn [fst snd].
  destruct (projections_of_core wr (rejectedOf wr)) as (P1 & _).
  rewrite <- C, writesOf_core in P1. rewrite P1.
  intros H.
  assert (Hin : In d (map fst wr)).
  { destruct H as [H|(r & Hr & H)]; [exact H|].
    inversion Hr; subst. now apply keptOf_incl. }
  clear H. rewrite F in Hin. apply in_map_iff in Hin.
  destruct Hin as (d0 & <- & Hd0).
  exists d0. split.
  - destruct L as [L|[_ L]].
    + subst wr. destruct d0s; [destruct Hd0 | discriminate F].
    + rewrite L. now apply in_map.
  - split; [reflexivity|]. exact (normalizePaths_spec d0).
Qed.

(* ---------------------------------------------------------- *)
(** *** Operations while the store is initializing *)

(** C3 (the code at the failing input).  [deleteSup] does not test the
    store's state: while the store is initializing it still asks the file
    collaborator to remove the file, and the world it leaves is the one
    after that removal. *)
Theorem deleteSup_ignores_initializing :
  forall (paperEntity : PaperEntity.t) (url : string) (w : W),
    dbInitializing env w = true ->
    In (EvFileRemoveFile url) (traceOf (deleteSup env paperEntity url w))
    /\ existsb touchesFiles (traceOf (deleteSup env paperEntity url w)) = true
    /\ (dbInitializing env (snd (file_removeFile env url w)) = true ->
        worldOf (deleteSup env paperEntity url w)
        = snd (file_removeFile env url w)).
Proof.
  intros d url w _.
  unfold deleteSup, errorcatching.
  destruct (file_removeFile env url w) as [[u|] w1] eqn:Ef.
  - match goal with
    | |- context [update env ?l] =>
        destruct (update_run l w1) as (d0s & wr & w2 & tr & E & _);
        pose proof (guarded_operations_noop w1) as G
    end.
    erewrite bind_run; [ | reflexivity | ].
    2:{ eapply bind_run; [unfold Async.call; rewrite Ef; reflexivity|].
        eapply bind_run; [exact E|]. reflexivity. }
    unfold traceOf, worldOf. cbn [fst snd].
    split; [simpl; auto|]. split; [reflexivity|].
    intros Hi. destruct (G Hi) as (_ & _ & G3 & _).
    rewrite G3 in E. now inversion E.
  - erewrite bind_run; [ | reflexivity | ].
    2:{ eapply bind_throw. unfold Async.call. rewrite Ef. reflexivity. }
    unfold traceOf, worldOf. cbn [fst snd].
    split; [simpl; auto|]. split; reflexivity.
Qed.

(** [create] has no test of its own either: it asks the scraper first and
    then relies on the test in [update]. *)
Lemma create_scrapes_first (urlList : list string) (w : W) :
  exists rest,
    traceOf (create env urlList w)
    = EvScrape (map PayloadFile urlList) [] false :: rest.
Proof.
  unfold create, errorcatching.
  destruct (scrape_scrape env (map PayloadFile urlList) [] false w)
    as [[ds|] w1] eqn:Es.
  - destruct (update_run ds w1) as (d0s & wr & w2 & tr & E & _).
    erewrite bind_run;
      [ | unfold Async.call; rewrite Es; reflexivity | exact E ].
    eexists. reflexivity.
  - erewrite bind_throw; [ | unfold Async.call; rewrite Es; reflexivity ].
    eexists. reflexivity.
Qed.

(* ---------------------------------------------------------- *)
(** *** The scheduled rescrape *)

(** C9.  A firing of the scheduled task within [7 * 86400 - 10] seconds
    of the stored last-rematch time does nothing: no call at all is made
    and the world, the stored time included, is left as it was.  The
    stored time is set only as the last step of a firing that passed
    that test and queried the store, and it is set to the time read at
    that moment; as long as the store stays ready during the firing, the
    scraper was called before. *)
Theorem scrapePreprint_rematch_guard :
  forall w : W,
    ((nowSeconds (date_now env w) - pref_lastRematchTime env w
      < rematchPeriod - rematchTolerance)%Z ->
     scrapePreprint env w = (Ret tt, w, []))
    /\ (forall t,
          In (EvPrefSetLastRematchTime t) (traceOf (scrapePreprint env w)) ->
          (rematchPeriod - rematchTolerance
           <= nowSeconds (date_now env w) - pref_lastRematchTime env w)%Z
          /\ exists pre wb,
              traceOf (scrapePreprint env w)
              = pre ++ [EvPrefSetLastRematchTime (nowSeconds (date_now env wb))]
              /\ worldOf (scrapePreprint env w)
                 = pref_set_lastRematchTime env (nowSeconds (date_now env wb)) wb
              /\ In (EvRepoLoad preprintQuery "addTime" "desc") pre
              /\ (keepsReady env ->
                  exists payloads, In (EvScrape payloads [] false) pre)).
Proof.
  intros w. split.
  - apply scrapePreprint_skip.
  - apply scrapePreprint_stamp.
Qed.

End Runs.

(* ================================================================= *)
(** ** The service on the concrete world *)

Section OnDemo.

Import PaperService.

Example update_batch_result :
  outcomeOf (update Demo.env Demo.batch Demo.ready)
  = Ret [ Demo.draft "A" "a.pdf" ["s2.zip"];
          PaperEntity.mk "C" "C" EmptyString EmptyString [] [] [] ].
Proof. vm_compute. reflexivity. Qed.

Example update_batch_removals :
  removals (traceOf (update Demo.env Demo.batch Demo.ready))
  = [ Demo.draft "locked" "b.pdf" [];
      PaperEntity.mk EmptyString EmptyString EmptyString "c.pdf" [] [] [] ]
  /\ Demo.files (worldOf (update Demo.env Demo.batch Demo.ready)) = ["a.pdf"].
Proof. split; vm_compute; reflexivity. Qed.

Example update_while_starting :
  update Demo.env Demo.batch Demo.starting = (Ret [], Demo.starting, []).
Proof. vm_compute. reflexivity. Qed.

Lemma update_paths_normalized_witness :
  exists d0,
    In (Some d0) (fileStageResults Demo.env Demo.batch Demo.ready)
    /\ Demo.draft "A" "a.pdf" ["s2.zip"] = normalizePaths d0
    /\ PaperEntity.mainURL (Demo.draft "A" "a.pdf" ["s2.zip"])
       = (if Path.isAbsolute (PaperEntity.mainURL d0) then EmptyString
          else Path.basename (PaperEntity.mainURL d0))
    /\ PaperEntity.supURLs (Demo.draft "A" "a.pdf" ["s2.zip"])
       = filter (fun url => negb (Path.isAbsolute url)) (PaperEntity.supURLs d0)
    /\ Path.isAbsolute (PaperEntity.mainURL (Demo.draft "A" "a.pdf" ["s2.zip"]))
       = false
    /\ Forall (fun url => Path.isAbsolute url = false)
         (PaperEntity.supURLs (Demo.draft "A" "a.pdf" ["s2.zip"])).
Proof.
  apply (update_paths_normalized Demo.env Demo.batch Demo.ready
           (Demo.draft "A" "a.pdf" ["s2.zip"])).
  left. vm_compute. left. reflexivity.
Defined.

Lemma deleteSup_ignores_initializing_witness :
  Demo.initFlag Demo.starting = true
  /\ Demo.files
       (worldOf (deleteSup Demo.env (Demo.draft "A" "a.pdf" ["b.pdf"])
                   "/tmp/b.pdf" Demo.starting))
     = ["/tmp/a.pdf"; "/tmp/c.pdf"].
Proof.
  split; [reflexivity|].
  refine (eq_trans
            (f_equal Demo.files
               (proj2 (proj2 (deleteSup_ignores_initializing Demo.env
                                (Demo.draft "A" "a.pdf" ["b.pdf"])
                                "/tmp/b.pdf" Demo.starting eq_refl))
                  eq_refl)) _).
  vm_compute. reflexivity.
Defined.

Lemma demo_keepsReady : keepsReady Demo.env.
Proof. split; intros; reflexivity. Qed.

Lemma scrapePreprint_rematch_guard_witness :
  scrapePreprint Demo.env Demo.ready = (Ret tt, Demo.ready, [])
  /\ exists pre payloads,
      traceOf (scrapePreprint Demo.env Demo.due)
      = pre ++ [EvPrefSetLastRematchTime 2000000]
      /\ In (EvScrape payloads [] false) pre.
Proof.
  split.
  - apply (proj1 (scrapePreprint_rematch_guard Demo.env Demo.ready)).
    vm_compute. reflexivity.
  - destruct (proj2 (scrapePreprint_rematch_guard Demo.env Demo.due)
                2000000%Z)
      as (_ & pre & wb & Htr & _ & _ & Hscrape).
    + vm_compute. auto 10.
    + destruct (Hscrape demo_keepsReady) as (payloads & Hin).
      exists pre, payloads. split; [|exact Hin].
      rewrite Htr. f_equal. f_equal. f_equal.
      apply (f_equal (fun tr => last tr EvRealm)) in Htr.
      rewrite last_last in Htr.
      vm_compute in Htr. now inversion Htr.
Defined.

(** Two firings: the first is due and stamps the time; a second one
    604789 seconds later does nothing; one second later still it would
    run again. *)
Example two_firings :
  let w1 := worldOf (scrapePreprint Demo.env Demo.due) in
  let soon := Demo.set_clock (2000000000 + 604789000) w1 in
  let later := Demo.set_clock (2000000000 + 604790000) w1 in
  Demo.lastRematch w1 = 2000000%Z
  /\ scrapePreprint Demo.env soon = (Ret tt, soon, [])
  /\ Demo.lastRematch (worldOf (scrapePreprint Demo.env later)) = 2604790%Z.
Proof. repeat split; vm_compute; reflexivity. Qed.

Example create_while_starting :
  create Demo.env ["/tmp/a.pdf"] Demo.starting
  = (Ret [], Demo.starting, [EvScrape [PayloadFile "/tmp/a.pdf"] [] false]).
Proof. vm_compute. reflexivity. Qed.

Example createIntoCategorizer_folder_on_demo :
  let c := Categorizer.mk "9" "thesis" "red" in
  option_map
    (fun d => (PaperEntity.tags d, PaperEntity.folders d))
    (match outcomeOf (createIntoCategorizer Demo.env true ["/tmp/a.pdf"] c
                        CategorizerType.PaperFolder Demo.ready) with
     | Ret (d :: _) => Some d
     | _ => None
     end)
  = Some ([c], []).
Proof. vm_compute. reflexivity. Qed.

End OnDemo.

(* ================================================================= *)
(** ** More on the filter compiler *)

Section FilterCompilerMore.

Import PaperFilterOptions.

Lemma pick_pick {A} (new : option A) (old : A) :
  pick new (pick new old) = pick new old.
Proof. destruct new; reflexivity. Qed.

Lemma assign_assign (p : Partial) (o : t) : assign p (assign p o) = assign p o.
Proof. unfold assign. simpl. now rewrite !pick_pick. Qed.

Lemma assign_noOptions (o : t) :
  assign noOptions o
  = mk (filters o) (search o) (searchMode o) (flaged o) (tag o) (folder o)
      (limit o).
Proof. reflexivity. Qed.

(** X1.  Options without a search string, a set flag, a tag or a folder
    compile to no clause at all, whatever clauses the object held before;
    with no limit either the predicate is the empty string. *)
Theorem update_without_criteria :
  forall (fmt : string -> string) (now : Z) (p : Partial) (this : t),
    truthyStr (search (assign p this)) = None ->
    flaged (assign p this) <> Some true ->
    truthyStr (tag (assign p this)) = None ->
    truthyStr (folder (assign p this)) = None ->
    exists o, update fmt now p this = Some o
              /\ filters o = []
              /\ (limitSet (limit (assign p this)) = None ->
                  toString o = EmptyString).
Proof.
  intros fmt now p this Hs Hf Ht Hd.
  assert (E : update fmt now p this
              = Some (mk [] (search (assign p this)) (searchMode (assign p this))
                        (flaged (assign p this)) (tag (assign p this))
                        (folder (assign p this)) (limit (assign p this)))).
  { unfold update, searchClauses, clauseIf. rewrite Hs, Ht, Hd.
    destruct (flaged (assign p this)) as [[|]|]; try reflexivity.
    now elim Hf. }
  eexists. split; [exact E|]. split; [reflexivity|].
  intros Hl. unfold toString. cbn [limit filters]. rewrite Hl. reflexivity.
Qed.

Lemma update_without_criteria_witness :
  exists o,
    update formatString_spec 0 noOptions
      (withFilters ["(flag == true)"] fresh) = Some o
    /\ filters o = []
    /\ toString o = EmptyString.
Proof.
  destruct (update_without_criteria formatString_spec 0 noOptions
              (withFilters ["(flag == true)"] fresh))
    as (o & Ho & Hf & Hs).
  - reflexivity.
  - discriminate.
  - reflexivity.
  - reflexivity.
  - exists o. split; [exact Ho|]. split; [exact Hf|]. apply Hs. reflexivity.
Defined.

Lemma update_fields (fmt : string -> string) (now : Z) (p : Partial) (this o : t) :
  update fmt now p this = Some o ->
  search o = search (assign p this)
  /\ searchMode o = searchMode (assign p this)
  /\ flaged o = flaged (assign p this)
  /\ tag o = tag (assign p this)
  /\ folder o = folder (assign p this)
  /\ limit o = limit (assign p this).
Proof.
  unfold update. destruct (searchClauses fmt now (assign p this)); [|discriminate].
  intros H. inversion H. subst. simpl. repeat split.
Qed.

Lemma update_from_fields (fmt : string -> string) (now : Z) (p q : Partial)
  (a b : t) :
  search (assign p a) = search (assign q b) ->
  searchMode (assign p a) = searchMode (assign q b) ->
  flaged (assign p a) = flaged (assign q b) ->
  tag (assign p a) = tag (assign q b) ->
  folder (assign p a) = folder (assign q b) ->
  limit (assign p a) = limit (assign q b) ->
  update fmt now p a = update fmt now q b.
Proof.
  intros H1 H2 H3 H4 H5 H6.
  unfold update, searchClauses. rewrite H1, H2, H3, H4, H5, H6. reflexivity.
Qed.

(** X2.  The clauses are recomputed from the option fields on every
    [update]: the clauses held before do not enter the result, and
    compiling again, with the same options or with none, at the same
    instant, gives the state already reached. *)
Theorem update_recompiles :
  forall (fmt : string -> string) (now : Z) (p : Partial) (this o : t),
    update fmt now p this = Some o ->
    (forall fs, update fmt now p (withFilters fs this) = Some o)
    /\ update fmt now p o = Some o
    /\ update fmt now noOptions o = Some o.
Proof.
  intros fmt now p this o H.
  destruct (update_fields fmt now p this o H) as (F1 & F2 & F3 & F4 & F5 & F6).
  split; [|split].
  - intros fs. rewrite <- H. apply update_from_fields; reflexivity.
  - rewrite <- H. apply update_from_fields; unfold assign; simpl;
      rewrite ?F1, ?F2, ?F3, ?F4, ?F5, ?F6; unfold assign; simpl;
      apply pick_pick.
  - rewrite <- H. apply update_from_fields; unfold assign; simpl;
      rewrite ?F1, ?F2, ?F3, ?F4, ?F5, ?F6; reflexivity.
Qed.

Lemma update_recompiles_witness :
  let p := advancedSearch "addTime > [3 DAYS]" (Some (Some 5%Z)) in
  exists o,
    update formatString_spec 1613842215000 p fresh = Some o
    /\ toString o = "addTime < 2021-02-17@17:30:15 LIMIT(5)"
    /\ update formatString_spec 1613842215000 p o = Some o.
Proof.
  cbv zeta.
  assert (H : update formatString_spec 1613842215000
                (advancedSearch "addTime > [3 DAYS]" (Some (Some 5%Z))) fresh
              = Some (mk ["addTime < 2021-02-17@17:30:15"]
                        (Some "addTime > [3 DAYS]") (Some advanced)
                        None None None (Some 5%Z)))
    by (vm_compute; reflexivity).
  eexists. split; [exact H|]. split; [vm_compute; reflexivity|].
  exact (proj1 (proj2 (update_recompiles _ _ _ _ _ H))).
Defined.

(** X3.  [update] throws in one case only: an advanced-mode search whose
    first date macro, after the operators were inverted, lies so many days
    back that the date is invalid ([toISOString] raises a [RangeError]).
    General and full-text searches always compile. *)
Theorem update_throws_only_on_invalid_date :
  forall (fmt : string -> string) (now : Z) (p : Partial) (this : t),
    update fmt now p this = None
    <-> exists s first rest,
        truthyStr (search (assign p this)) = Some s
        /\ searchMode (assign p this) = Some advanced
        /\ Regex.matchAll dateRegex (invertComparisons (fmt s))
           = Some (first :: rest)
        /\ JSDate.minusDays now (daysOf first) = None.
Proof.
  intros fmt now p this. unfold update, searchClauses, expandDates. split.
  - destruct (truthyStr (search (assign p this))) as [s|]; [|discriminate].
    destruct (searchMode (assign p this)) as [[| |]|]; try discriminate.
    destruct (Regex.matchAll dateRegex (invertComparisons (fmt s)))
      as [[|first rest]|] eqn:Em; try discriminate.
    destruct (JSDate.minusDays now (daysOf first)) eqn:Ed; [discriminate|].
    intros _. exists s, first, rest. auto.
  - intros (s & first & rest & Hs & Hm & Hd & Hx).
    rewrite Hs, Hm, Hd, Hx. reflexivity.
Qed.

Example update_throws_on_far_macro :
  update formatString_spec 1613842215000
    (advancedSearch "addTime > [999999999999 DAYS]" None) fresh = None
  /\ exists o,
      update formatString_spec 1613842215000
        (advancedSearch "addTime > [99999 DAYS]" None) fresh = Some o.
Proof. split; [|eexists]; vm_compute; reflexivity. Qed.

End FilterCompilerMore.

Section GeneralMode.

Import PaperFilterOptions JSString.

Lemma string_append_assoc (a b c : string) :
  ((a ++ b) ++ c)%string = (a ++ (b ++ c))%string.
Proof. induction a as [|x a IH]; simpl; [reflexivity | now rewrite IH]. Qed.

Lemma includes_char (a c : ascii) (r : string) :
  includes (String a EmptyString) (String c r)
  = Ascii.eqb a c || includes (String a EmptyString) r.
Proof.
  cbn [includes prefix].
  destruct (ascii_dec a c) as [->|Hn].
  - rewrite Ascii.eqb_refl. now destruct r.
  - apply Ascii.eqb_neq in Hn. now rewrite Hn.
Qed.

Lemma includes_char_app (a : ascii) (x y : string) :
  includes (String a EmptyString) (x ++ y)
  = includes (String a EmptyString) x || includes (String a EmptyString) y.
Proof.
  induction x as [|c x IH].
  - simpl. reflexivity.
  - cbn [append]. rewrite !includes_char, IH. now rewrite orb_assoc.
Qed.

Lemma rev_string_acc (acc s : string) :
  rev_string acc s = (rev_string EmptyString s ++ acc)%string.
Proof.
  revert acc. induction s as [|c s IH]; intros acc; simpl; [reflexivity|].
  rewrite (IH (String c acc)), (IH (String c EmptyString)).
  rewrite string_append_assoc. reflexivity.
Qed.

Lemma join_cons (sep x : string) (xs : list string) :
  xs <> [] -> join sep (x :: xs) = (x ++ sep ++ join sep xs)%string.
Proof. destruct xs; [congruence | reflexivity]. Qed.

Lemma split_from_not_nil (sep : ascii) (cur s : string) : split_from sep cur s <> [].
Proof.
  revert cur. induction s as [|c s IH]; intros cur; simpl; [discriminate|].
  destruct (Ascii.eqb c sep); [discriminate | apply IH].
Qed.

Lemma join_split_from (cur s : string) :
  join "*" (split_from " " cur s)
  = (rev_string EmptyString cur ++ spaceToStar s)%string.
Proof.
  revert cur. induction s as [|c s IH]; intros cur.
  - simpl. now rewrite string_append_empty_r.
  - cbn [split_from spaceToStar]. destruct (Ascii.eqb c " ").
    + rewrite join_cons by apply split_from_not_nil.
      rewrite IH. reflexivity.
    + rewrite IH. cbn [rev_string]. rewrite rev_string_acc.
      rewrite string_append_assoc. reflexivity.
Qed.

Lemma spaceToStar_no_space (s : string) : includes " " (spaceToStar s) = false.
Proof.
  induction s as [|c s IH]; [reflexivity|].
  cbn [spaceToStar includes]. rewrite IH, orb_false_r.
  destruct (Ascii.eqb_spec c " ") as [->|Hc]; [reflexivity|].
  cbn [prefix]. destruct (ascii_dec " " c) as [E|E]; [|reflexivity].
  now elim Hc.
Qed.

Lemma spaceToStar_length (s : string) :
  String.length (spaceToStar s) = String.length s.
Proof. induction s as [|c s IH]; simpl; [reflexivity | now rewrite IH]. Qed.

(** X4.  In general mode the pattern searched in the four fields is the
    trimmed search string with every space turned into a star, between two
    stars: it holds no space, and a run of spaces gives a run of stars, the
    pattern being as long as the trimmed string plus two. *)
Theorem generalClause_pattern :
  forall formatedSearch : string,
    let pattern := ("*" ++ spaceToStar (trim formatedSearch) ++ "*")%string in
    generalClause formatedSearch = likeAnyField pattern
    /\ includes " " pattern = false
    /\ String.length pattern = String.length (trim formatedSearch) + 2.
Proof.
  intros s. cbv zeta. split; [|split].
  - unfold generalClause, likeAnyField, split.
    rewrite join_split_from. reflexivity.
  - rewrite !includes_char_app, spaceToStar_no_space. reflexivity.
  - rewrite !string_length_append, spaceToStar_length. simpl. lia.
Qed.

Example generalClause_two_spaces :
  generalClause " foo  bar " = likeAnyField "*foo**bar*".
Proof. vm_compute. reflexivity. Qed.

End GeneralMode.

Section AdvancedVerbatim.

Import PaperFilterOptions JSString Regex.

Lemma isSuffix_refl (s : string) : isSuffix s s.
Proof. exists 0. reflexivity. Qed.

Lemma drop_empty (n : nat) : drop n EmptyString = EmptyString.
Proof. destruct n; reflexivity. Qed.

Lemma isSuffix_tail (s' : string) (c : ascii) (s : string) :
  isSuffix s' s -> isSuffix s' (String c s).
Proof. intros [n H]. exists (S n). exact H. Qed.

Lemma drop_drop (n m : nat) (s : string) : drop n (drop m s) = drop (m + n) s.
Proof.
  revert s. induction m as [|m IH]; intros s; [reflexivity|].
  destruct s as [|c s]; simpl; [apply drop_empty | apply IH].
Qed.

Lemma isSuffix_trans (a b c : string) : isSuffix a b -> isSuffix b c -> isSuffix a c.
Proof.
  intros [n Hn] [m Hm]. exists (m + n). rewrite <- drop_drop, Hm. exact Hn.
Qed.

(** When a match succeeds, the continuation was given a suffix of the
    input. *)
Lemma run_suffix (r : re) :
  forall (s : string) (k : string -> option string) (out : string),
    run r s k = Some out ->
    exists s', isSuffix s' s /\ k s' = Some out.
Proof.
  induction r as [|c|p|r1 IH1 r2 IH2|r1 IH1 r2 IH2|r1 IH1]; intros s k out H.
  - exists s. split; [apply isSuffix_refl | exact H].
  - destruct s as [|d rest]; simpl in H; [discriminate|].
    destruct (Ascii.eqb c d); [|discriminate].
    exists rest. split; [apply isSuffix_tail, isSuffix_refl | exact H].
  - destruct s as [|d rest]; simpl in H; [discriminate|].
    destruct (p d); [|discriminate].
    exists rest. split; [apply isSuffix_tail, isSuffix_refl | exact H].
  - simpl in H. apply IH1 in H. destruct H as (s1 & S1 & H).
    apply IH2 in H. destruct H as (s2 & S2 & H).
    exists s2. split; [eapply isSuffix_trans; eassumption | exact H].
  - simpl in H. destruct (run r1 s k) eqn:E1.
    + inversion H; subst. now apply IH1.
    + now apply IH2.
  - simpl in H. revert H. generalize (String.length s) as fuel.
    intros fuel. revert s. induction fuel as [|f IHf]; intros s H.
    + exists s. split; [apply isSuffix_refl | exact H].
    + match type of H with
      | match ?x with _ => _ end = _ => destruct x eqn:E1
      end.
      * inversion H; subst. apply IH1 in E1. destruct E1 as (s1 & S1 & E1).
        destruct (String.length s1 <? String.length s); [|discriminate].
        apply IHf in E1. destruct E1 as (s2 & S2 & E1).
        exists s2. split; [eapply isSuffix_trans; eassumption | exact E1].
      * exists s. split; [apply isSuffix_refl | exact H].
Qed.

Lemma includes_suffix (p s' s : string) :
  isSuffix s' s -> includes p s' = true -> includes p s = true.
Proof.
  intros [n Hn]. revert s Hn. induction n as [|n IH]; intros s Hn Hi.
  - simpl in Hn. now subst.
  - destruct s as [|c s]; simpl in Hn.
    + now subst.
    + cbn [includes]. rewrite (IH s Hn Hi). apply orb_true_r.
Qed.

Lemma run_first_char (c : ascii) (r : re) (s : string)
  (k : string -> option string) :
  run (Cat (Chr c) r) s k
  = match s with
    | String d rest => if Ascii.eqb c d then run r rest k else None
    | EmptyString => None
    end.
Proof. destruct s; reflexivity. Qed.

Lemma dateRegex_needs_bracket (s : string) (k : string -> option string)
  (out : string) :
  run dateRegex s k = Some out -> includes "[" s = true.
Proof.
  unfold dateRegex. rewrite run_first_char.
  destruct s as [|d rest]; [discriminate|].
  destruct (Ascii.eqb_spec "[" d) as [<-|Hn]; [|discriminate].
  intros _. now destruct rest.
Qed.

Lemma compareDateRegex_needs_bracket (s : string) (k : string -> option string)
  (out : string) :
  run compareDateRegex s k = Some out -> includes "[" s = true.
Proof.
  unfold compareDateRegex. intros H.
  change (run (Alt (Chr "<") (Alt (Str "<=") (Alt (Chr ">") (Str ">=")))) s
            (fun s1 => run (Star (Cls is_space)) s1
                         (fun s2 => run dateRegex s2 k)) = Some out) in H.
  apply run_suffix in H. destruct H as (s1 & S1 & H).
  apply run_suffix in H. destruct H as (s2 & S2 & H).
  apply dateRegex_needs_bracket in H.
  eapply includes_suffix; [|exact H].
  eapply isSuffix_trans; eassumption.
Qed.

Lemma no_match_at (r : re) (s : string) :
  (forall k out, run r s k = Some out -> includes "[" s = true) ->
  includes "[" s = false -> match_at r s = None.
Proof.
  intros Hr Hn. unfold match_at.
  destruct (run r s (fun rest => Some rest)) eqn:E; [|reflexivity].
  apply Hr in E. congruence.
Qed.

Lemma includes_tail_false (p : string) (c : ascii) (s : string) :
  includes p (String c s) = false -> includes p s = false.
Proof. cbn [includes]. intros H. now apply orb_false_iff in H. Qed.

Lemma matches_from_none (r : re) :
  (forall s k out, run r s k = Some out -> includes "[" s = true) ->
  forall s skip, includes "[" s = false -> matches_from skip r s = [].
Proof.
  intros Hr s. induction s as [|c s IH]; intros skip Hn.
  - simpl. rewrite (no_match_at r EmptyString (Hr EmptyString) Hn).
    now destruct skip.
  - cbn [matches_from]. pose proof (includes_tail_false _ _ _ Hn) as Hn'.
    destruct skip; [|now apply IH].
    rewrite (no_match_at r _ (Hr _) Hn). now apply IH.
Qed.

Lemma replace_from_none (r : re) (rep : string) :
  (forall s k out, run r s k = Some out -> includes "[" s = true) ->
  forall s, includes "[" s = false -> replace_from 0 r rep s = s.
Proof.
  intros Hr s. induction s as [|c s IH]; intros Hn.
  - simpl. now rewrite (no_match_at r EmptyString (Hr EmptyString) Hn).
  - cbn [replace_from]. rewrite (no_match_at r _ (Hr _) Hn).
    rewrite IH; [reflexivity|]. exact (includes_tail_false _ _ _ Hn).
Qed.

(** X5.  An advanced-mode search without an opening square bracket holds
    no date macro: it is compiled to the formatted search string itself,
    no operator inverted and nothing substituted, and cannot throw. *)
Theorem advanced_without_macro_is_verbatim :
  forall (fmt : string -> string) (now : Z) (s : string),
    truthy s = true ->
    includes "[" (fmt s) = false ->
    invertComparisons (fmt s) = fmt s
    /\ expandDates now (fmt s) = Some (fmt s)
    /\ option_map toString (create fmt now (Some (advancedSearch s None)))
       = Some (fmt s).
Proof.
  intros fmt now s Ht Hn.
  assert (Hinv : invertComparisons (fmt s) = fmt s).
  { unfold invertComparisons, matchAll.
    now rewrite (matches_from_none compareDateRegex
                   compareDateRegex_needs_bracket (fmt s) 0 Hn). }
  assert (Hexp : expandDates now (fmt s) = Some (fmt s)).
  { unfold expandDates, matchAll.
    now rewrite (matches_from_none dateRegex dateRegex_needs_bracket (fmt s) 0 Hn). }
  split; [exact Hinv|]. split; [exact Hexp|].
  rewrite compile_advanced, Ht, Hinv. exact Hexp.
Qed.

Lemma advanced_without_macro_witness :
  option_map toString
    (create formatString_spec 0
       (Some (advancedSearch "rating >= 4 AND title CONTAINS 'x < y'" None)))
  = Some "rating >= 4 AND title CONTAINS 'x < y'".
Proof.
  refine (eq_trans
            (proj2 (proj2 (advanced_without_macro_is_verbatim
                             formatString_spec 0
                             "rating >= 4 AND title CONTAINS 'x < y'" _ _))) _).
  - reflexivity.
  - vm_compute. reflexivity.
  - vm_compute. reflexivity.
Defined.

End AdvancedVerbatim.

(* ================================================================= *)
(** ** Which calls an operation can make *)

Section Footprints.

Context {W : Type}.

Lemma Emits_ret {A} (P : Event -> Prop) (Q : A -> Prop) (a : A) :
  Q a -> Emits (W := W) P Q (Async.ret a).
Proof.
  intros H w. split; [constructor|].
  unfold outcomeOf. simpl. intros a' E. inversion E; subst. exact H.
Qed.

Lemma Emits_throw {A} (P : Event -> Prop) (Q : A -> Prop) :
  Emits (W := W) P Q Async.throw.
Proof. intros w. split; [constructor|]. unfold outcomeOf. simpl. discriminate. Qed.

Lemma Emits_read {A} (P : Event -> Prop) (Q : A -> Prop) (f : W -> A) :
  (forall w, Q (f w)) -> Emits P Q (Async.read f).
Proof.
  intros H w. split; [constructor|].
  unfold outcomeOf. simpl. intros a E. inversion E; subst. apply H.
Qed.

Lemma Emits_log (P : Event -> Prop) (Q : unit -> Prop) l msg additional :
  P (EvLog l msg additional) -> Q tt ->
  Emits (W := W) P Q (Async.log l msg additional).
Proof.
  intros HP HQ w. split; [repeat constructor; exact HP|].
  intros []. intros _. exact HQ.
Qed.

Lemma Emits_call {A} (P : Event -> Prop) (Q : A -> Prop)
  (f : W -> Outcome A * W) (ev : Outcome A -> Event) :
  (forall o, P (ev o)) -> (forall a, Q a) -> Emits P Q (Async.call f ev).
Proof.
  intros HP HQ w. unfold Async.call, traceOf, outcomeOf.
  destruct (f w) as [o w1]. simpl. split; [repeat constructor; apply HP|].
  intros a _. apply HQ.
Qed.

Lemma Emits_start (P : Event -> Prop) (Q : unit -> Prop) (f : W -> W) (ev : Event) :
  P ev -> Q tt -> Emits P Q (Async.start f ev).
Proof.
  intros HP HQ w. split; [repeat constructor; exact HP|].
  intros []. intros _. exact HQ.
Qed.

Lemma Emits_attempt {A} (P : Event -> Prop) (Q : A -> Prop) (m : M W A) :
  Emits P Q m ->
  Emits P (fun o => match o with Ret a => Q a | Throw => True end)
    (Async.attempt m).
Proof.
  intros H w. destruct (H w) as [HP HQ]. revert HP HQ.
  unfold Async.attempt, traceOf, outcomeOf.
  destruct (m w) as [[o w1] t1]. simpl. intros HP HQ. split; [exact HP|].
  intros o' E. inversion E; subst. destruct o' as [a|]; [now apply HQ | exact I].
Qed.

Lemma Emits_bind {A B} (P : Event -> Prop) (Q : A -> Prop) (R : B -> Prop)
  (m : M W A) (f : A -> M W B) :
  Emits P Q m -> (forall a, Q a -> Emits P R (f a)) -> Emits P R (Async.bind m f).
Proof.
  intros Hm Hf w. destruct (Hm w) as [HP HQ]. revert HP HQ.
  unfold Async.bind, traceOf, outcomeOf.
  destruct (m w) as [[[a|] w1] t1]; simpl; intros HP HQ.
  - destruct (Hf a (HQ a eq_refl) w1) as [HP2 HQ2]. revert HP2 HQ2.
    unfold traceOf, outcomeOf. destruct (f a w1) as [[o w2] t2]. simpl.
    intros HP2 HQ2. split; [apply Forall_app; split; assumption | exact HQ2].
  - split; [exact HP | discriminate].
Qed.

Lemma Emits_weaken {A} (P : Event -> Prop) (Q Q' : A -> Prop) (m : M W A) :
  (forall a, Q a -> Q' a) -> Emits P Q m -> Emits P Q' m.
Proof.
  intros HQ H w. destruct (H w) as [HP Hq]. split; [exact HP|].
  intros a E. apply HQ, Hq, E.
Qed.

Lemma Emits_forEach {A B} (P : Event -> Prop) (R : A -> B -> Prop)
  (f : A -> M W B) (xs : list A) :
  (forall x, In x xs -> Emits P (R x) (f x)) ->
  Emits P (Forall2 R xs) (Async.forEach f xs).
Proof.
  induction xs as [|x xs IH]; intros H.
  - apply Emits_ret. constructor.
  - cbn [Async.forEach].
    apply Emits_bind with (Q := R x); [apply H; now left|]. intros y Hy.
    apply Emits_bind with (Q := Forall2 R xs);
      [apply IH; intros x' Hx'; apply H; now right|].
    intros ys Hys. apply Emits_ret. now constructor.
Qed.

Lemma Emits_errorcatching {A} (P : Event -> Prop) (Q : A -> Prop)
  (msg : string) (dflt : A) (m : M W A) :
  P (EvLog Error msg EmptyString) -> Q dflt -> Emits P Q m ->
  Emits P Q (errorcatching msg dflt m).
Proof.
  intros HP HQ H w. destruct (H w) as [Hp Hq]. revert Hp Hq.
  unfold errorcatching, traceOf, outcomeOf.
  destruct (m w) as [[[a|] w1] t1]; simpl; intros Hp Hq.
  - split; [exact Hp | exact Hq].
  - split.
    + apply Forall_app. split; [exact Hp | repeat constructor; exact HP].
    + intros a E. inversion E; subst. exact HQ.
Qed.

Lemma Emits_chunkRun {I R} (P : Event -> Prop)
  (worker : I -> M W (I * Outcome R)) (fallback : I -> M W R) (items : list I) :
  (forall i, Emits P (fun _ => True) (worker i)) ->
  (forall i, Emits P (fun _ => True) (fallback i)) ->
  Emits P (fun _ => True) (chunkRun worker fallback items).
Proof.
  intros Hw Hf. induction items as [|item rest IH].
  - now apply Emits_ret.
  - cbn [chunkRun].
    apply Emits_bind with (Q := fun _ => True); [apply Hw|]. intros io _.
    apply Emits_bind with (Q := fun _ => True).
    + destruct (snd io); [now apply Emits_ret|].
      apply Emits_bind with (Q := fun _ => True); [apply Hf|].
      intros; now apply Emits_ret.
    + intros r _. apply Emits_bind with (Q := fun _ => True); [exact IH|].
      intros; now apply Emits_ret.
Qed.

Lemma Forall2_combine_In {A B} (R : A -> B -> Prop) (xs : list A) (ys : list B)
  (x : A) (y : B) :
  Forall2 R xs ys -> In (x, y) (combine xs ys) -> R x y.
Proof.
  intros H. induction H as [|a b xs ys Hab H IH]; simpl; [tauto|].
  intros [E|Hin]; [inversion E; subst; exact Hab | now apply IH].
Qed.

Variable env : Env W.
Import PaperService.

Lemma Emits_moveWorker (d : PaperEntity.t) :
  Emits (fun ev => updateCall ev = true) (fun _ => True) (moveWorker env d).
Proof.
  unfold moveWorker.
  eapply Emits_bind.
  - apply Emits_attempt. apply Emits_call with (Q := fun _ => True); auto.
  - intros [ok|] _; [|now apply Emits_ret].
    apply Emits_bind with (Q := fun _ => True).
    + destruct (negb ok && JSString.truthy (PaperEntity.mainURL d)).
      * apply Emits_bind with (Q := fun _ => True);
          [now apply Emits_log | intros; now apply Emits_ret].
      * now apply Emits_ret.
    + intros d1 _. apply Emits_bind with (Q := fun _ => True);
        [now apply Emits_read|]. intros cut _.
      eapply Emits_bind.
      * apply Emits_attempt. apply Emits_call with (Q := fun _ => True); auto.
      * intros; now apply Emits_ret.
Qed.

Lemma Emits_persistOne (d : PaperEntity.t) :
  Emits (fun ev => updateCall ev = true) (fun u => u = None \/ u = Some d)
    (persistOne env d).
Proof.
  unfold persistOne.
  apply Emits_bind with (Q := fun _ => True); [now apply Emits_read|].
  intros partition _. eapply Emits_bind.
  - apply Emits_attempt. apply Emits_call with (Q := fun _ => True); auto.
  - intros o _. apply Emits_bind with (Q := fun _ => True).
    + destruct o; [now apply Emits_ret|].
      apply Emits_bind with (Q := fun _ => True);
        [now apply Emits_log | intros; now apply Emits_ret].
    + intros [|] _; apply Emits_ret; auto.
Qed.

Lemma Emits_reconcileOne (d : PaperEntity.t) (u : option PaperEntity.t) :
  u = None \/ u = Some d ->
  Emits (fun ev => updateCall ev = true) (fun _ => True) (reconcileOne env (d, u)).
Proof.
  unfold reconcileOne. cbn [fst snd]. intros [->| ->].
  - now apply Emits_start.
  - rewrite String.eqb_refl. now apply Emits_ret.
Qed.

Lemma Emits_update (ds : list PaperEntity.t) :
  Emits (fun ev => updateCall ev = true) (fun _ => True) (update env ds).
Proof.
  unfold update. apply Emits_errorcatching; [reflexivity | exact I |].
  unfold update_body.
  apply Emits_bind with (Q := fun _ => True);
    [unfold initializing; now apply Emits_read|].
  intros [|] _; [now apply Emits_ret|].
  apply Emits_bind with (Q := fun _ => True); [now apply Emits_log|]. intros _ _.
  apply Emits_bind with (Q := fun _ => True).
  { apply Emits_chunkRun; [apply Emits_moveWorker|]. intros; now apply Emits_ret. }
  intros moved _.
  apply Emits_bind with (Q := fun _ => True).
  { eapply Emits_weaken; [|apply Emits_forEach with (R := fun _ _ => True)].
    - auto.
    - intros; now apply Emits_log. }
  intros _ _.
  destruct (normalizeAll (fst moved)) as [fm|]; [|apply Emits_throw].
  apply Emits_bind with (Q := fun _ => True).
  { unfold getRealm. apply Emits_call; auto. }
  intros _ _.
  apply Emits_bind with (Q := Forall2 (fun d u => u = None \/ u = Some d) fm).
  { apply Emits_forEach. intros; apply Emits_persistOne. }
  intros ups Hups.
  apply Emits_bind with (Q := fun _ => True).
  { eapply Emits_weaken; [|apply Emits_forEach with (R := fun _ _ => True)].
    - auto.
    - intros [d u] Hin. apply Emits_reconcileOne.
      exact (Forall2_combine_In _ _ _ _ _ Hups Hin). }
  intros _ _.
  apply Emits_bind with (Q := fun _ => True); [now apply Emits_start|].
  intros; now apply Emits_ret.
Qed.

(** X6.  [update] only logs, tests and relocates files, opens the realm,
    writes drafts, removes the files of failed drafts and asks for a cache
    refresh.  In particular it never renames a file: the draft it compares
    with the relocated one is that same draft, so the [moveFile] branch
    cannot run; and it never loads or deletes rows, never removes a single
    file by name, never evicts the cache. *)
Theorem update_call_footprint :
  forall (ds : list PaperEntity.t) (w : W),
    Forall (fun ev => updateCall ev = true) (traceOf (update env ds w))
    /\ (forall from to, ~ In (EvFileMoveFile from to) (traceOf (update env ds w)))
    /\ (forall url, ~ In (EvFileRemoveFile url) (traceOf (update env ds w)))
    /\ (forall ids, ~ In (EvCacheDelete ids) (traceOf (update env ds w)))
    /\ (forall ids ps, ~ In (EvRepoDelete ids ps) (traceOf (update env ds w)))
    /\ (forall q sb so, ~ In (EvRepoLoad q sb so) (traceOf (update env ds w))).
Proof.
  intros ds w. destruct (Emits_update ds w) as [H _].
  split; [exact H|].
  rewrite Forall_forall in H.
  repeat split; intros; intro Hin; apply H in Hin; discriminate Hin.
Qed.

End Footprints.

(* ================================================================= *)
(** ** More runs of the service *)

Section MoreRuns.

Context {W : Type} (env : Env W).
Import PaperService.

Lemma Emits_load (q sb so : string) (ft : option string) :
  Emits (fun ev => loadCall ev = true
                   /\ (PaperFilterOptions.truthyStr ft = None ->
                       touchesCache ev = false))
    (fun _ => True) (load env q sb so ft).
Proof.
  unfold load. apply Emits_errorcatching; [split; auto | exact I |].
  apply Emits_bind with (Q := fun _ => True);
    [unfold initializing; now apply Emits_read|].
  intros [|] _; [now apply Emits_ret|].
  destruct (PaperFilterOptions.truthyStr ft) as [s|].
  - apply Emits_bind with (Q := fun _ => True).
    { unfold getRealm.
      apply Emits_call; [intros o; split; [reflexivity | discriminate] | auto]. }
    intros _ _. apply Emits_bind with (Q := fun _ => True).
    { apply Emits_call; [intros o; split; [reflexivity | discriminate] | auto]. }
    intros all _.
    apply Emits_call; [intros o; split; [reflexivity | discriminate] | auto].
  - apply Emits_bind with (Q := fun _ => True).
    { unfold getRealm. apply Emits_call; auto. }
    intros _ _. apply Emits_call; auto.
Qed.

Lemma Emits_loadByIds (ids : list OID) :
  Emits (fun ev => loadCall ev = true /\ touchesCache ev = false)
    (fun _ => True) (loadByIds env ids).
Proof.
  unfold loadByIds. apply Emits_errorcatching; [split; auto | exact I |].
  apply Emits_bind with (Q := fun _ => True);
    [unfold initializing; now apply Emits_read|].
  intros [|] _; [now apply Emits_ret|].
  apply Emits_bind with (Q := fun _ => True).
  { unfold getRealm. apply Emits_call; auto. }
  intros _ _. apply Emits_call; auto.
Qed.

(** X7.  [load] and [loadByIds] only read: besides opening the realm they
    query the store, and [load] filters through the full-text cache, only
    when a non-empty full-text query is given; the only thing they log is
    their own failure.  They never write or delete a row and never touch a
    file. *)
Theorem load_only_reads :
  forall (w : W),
    (forall q sb so ft,
        Forall (fun ev => loadCall ev = true
                          /\ touchesFiles ev = false
                          /\ (PaperFilterOptions.truthyStr ft = None ->
                              touchesCache ev = false))
          (traceOf (load env q sb so ft w)))
    /\ (forall ids,
           Forall (fun ev => loadCall ev = true
                             /\ touchesFiles ev = false
                             /\ touchesCache ev = false)
             (traceOf (loadByIds env ids w))).
Proof.
  intros w. split.
  - intros q sb so ft. destruct (Emits_load q sb so ft w) as [H _].
    eapply Forall_impl; [|exact H]. intros ev [H1 H2].
    split; [exact H1|]. split; [|exact H2].
    destruct ev as [[]| | | | | | | | | | | | | | |]; try reflexivity;
      discriminate H1.
  - intros ids. destruct (Emits_loadByIds ids w) as [H _].
    eapply Forall_impl; [|exact H]. intros ev [H1 H2].
    split; [exact H1|]. split; [|exact H2].
    destruct ev as [[]| | | | | | | | | | | | | | |]; try reflexivity;
      discriminate H1.
Qed.

(** X8.  While the store reports that it is initializing, the nine
    operations that test it return their default at once: no call is made
    and the world is left as it was. *)
Theorem operations_wait_for_store :
  forall w : W,
    dbInitializing env w = true ->
    (forall q sb so ft, load env q sb so ft w = (Ret [], w, []))
    /\ (forall ids, loadByIds env ids w = (Ret [], w, []))
    /\ (forall ds, update env ds w = (Ret [], w, []))
    /\ (forall ids c ty, updateWithCategorizer env ids c ty w = (Ret tt, w, []))
    /\ (forall ids ps, delete env ids ps w = (Ret tt, w, []))
    /\ (forall b urls c ty, createIntoCategorizer env b urls c ty w = (Ret [], w, []))
    /\ (forall ds sc, scrape env ds sc w = (Ret tt, w, []))
    /\ scrapePreprint env w = (Ret tt, w, [])
    /\ renameAll env w = (Ret tt, w, []).
Proof.
  intros w H. repeat split; intros; now apply guard_run.
Qed.



End MoreRuns.

Section MoreRuns2.

Context {W : Type} (env : Env W).
Import PaperService.

(** X10.  [deleteSup] removes the file before it touches the record: the
    removal is its first call after the log line, and when the removal
    throws nothing else happens, the record is not updated and the
    operation still returns normally. *)
Theorem deleteSup_removes_first :
  forall (paperEntity : PaperEntity.t) (url : string) (w : W),
    outcomeOf (deleteSup env paperEntity url w) = Ret tt
    /\ (exists rest,
           traceOf (deleteSup env paperEntity url w)
           = EvLog Info "Removing supplementary file..." url
               :: EvFileRemoveFile url :: rest)
    /\ (fst (file_removeFile env url w) = Throw ->
        deleteSup env paperEntity url w
        = (Ret tt, snd (file_removeFile env url w),
           [EvLog Info "Removing supplementary file..." url;
            EvFileRemoveFile url;
            EvLog Error "Failed to delete supplementary file." EmptyString])).
Proof.
  intros d url w. unfold deleteSup, errorcatching.
  destruct (file_removeFile env url w) as [[u|] w1] eqn:Ef.
  - match goal with
    | |- context [update env ?l] =>
        destruct (update_run env l w1) as (d0s & wr & w2 & tr & E & _)
    end.
    erewrite bind_run; [ | reflexivity | ].
    2:{ eapply bind_run; [unfold Async.call; rewrite Ef; reflexivity|].
        eapply bind_run; [exact E|]. reflexivity. }
    unfold outcomeOf, traceOf. cbn [fst snd].
    split; [reflexivity|]. split; [eexists; reflexivity | discriminate].
  - erewrite bind_run; [ | reflexivity | ].
    2:{ eapply bind_throw. unfold Async.call. rewrite Ef. reflexivity. }
    unfold outcomeOf, traceOf. cbn [fst snd].
    split; [reflexivity|]. split; [eexists; reflexivity | reflexivity].
Qed.

(** X11.  [update] of an empty list, the store being ready, still opens the
    realm and asks for a refresh of the full-text cache, for no draft;
    nothing is written and the result is empty.  When the realm cannot be
    opened the cache is not asked either. *)
Theorem update_of_nothing :
  forall w : W,
    dbInitializing env w = false ->
    outcomeOf (update env [] w) = Ret []
    /\ traceOf (update env [] w)
       = [EvLog Info "Updating 0 paper(s)..." EmptyString; EvRealm]
           ++ match fst (realm env w) with
              | Ret _ => [EvCacheUpdate []]
              | Throw => [EvLog Error "Failed to update paper entities." EmptyString]
              end.
Proof.
  intros w Hinit. unfold update, errorcatching, update_body.
  destruct (realm env w) as [[u|] w1] eqn:Er.
  - erewrite bind_run;
      [ | unfold initializing, Async.read; rewrite Hinit; reflexivity | ].
    2:{ eapply bind_run; [reflexivity|].
        eapply bind_run; [reflexivity|].
        eapply bind_run; [reflexivity|]. cbn [fst normalizeAll].
        eapply bind_run; [unfold getRealm, Async.call; rewrite Er; reflexivity|].
        eapply bind_run; [reflexivity|].
        eapply bind_run; [reflexivity|].
        eapply bind_run; reflexivity. }
    split; reflexivity.
  - erewrite bind_run;
      [ | unfold initializing, Async.read; rewrite Hinit; reflexivity | ].
    2:{ eapply bind_run; [reflexivity|].
        eapply bind_run; [reflexivity|].
        eapply bind_run; [reflexivity|]. cbn [fst normalizeAll].
        eapply bind_throw. unfold getRealm, Async.call. rewrite Er. reflexivity. }
    split; reflexivity.
Qed.

(** X13.  [migrateLocaltoCloud] reports the number of entities it read
    from the local store, whatever became of them: its last call is the
    log line with that number and it returns normally.  If the store is
    initializing when the entities have been read, nothing at all is
    written, and the migration is reported all the same. *)
Theorem migrate_reports_what_it_read :
  forall (openLocal : M W (list PaperEntity.t)) (w w1 : W)
         (entities : list PaperEntity.t) (t1 : Trace),
    openLocal w = (Ret entities, w1, t1) ->
    let report :=
      EvLog Info ("Migrated " ++ count entities ++ " paper(s) to cloud database.")
        EmptyString in
    outcomeOf (migrateLocaltoCloud env openLocal w) = Ret tt
    /\ (exists t2,
           traceOf (migrateLocaltoCloud env openLocal w) = t1 ++ t2 ++ [report]
           /\ persisted t2
              = persisted (traceOf (update env (map PaperEntity.clone entities) w1)))
    /\ (dbInitializing env w1 = true ->
        migrateLocaltoCloud env openLocal w = (Ret tt, w1, t1 ++ [report])).
Proof.
  intros openLocal w w1 es t1 Eo. cbv zeta.
  destruct (update_run env (map PaperEntity.clone es) w1)
    as (d0s & wr & w2 & t2 & E & _).
  unfold migrateLocaltoCloud, errorcatching.
  erewrite bind_run; [ | exact Eo | ].
  2:{ eapply bind_run; [exact E|]. reflexivity. }
  unfold outcomeOf, traceOf. cbn [fst snd].
  split; [reflexivity|]. split.
  - exists t2. split; [reflexivity|]. now rewrite E.
  - intros Hi.
    destruct (guarded_operations_noop env w1 Hi) as (_ & _ & G & _).
    rewrite G in E. inversion E; subst. reflexivity.
Qed.

(** X15.  When the scraper throws, [create] and [scrape] stop there: no
    draft reaches the file stage or the store, the failure is logged and
    the operation returns its default. *)
Theorem scraper_failure_stops_the_operation :
  forall (w : W),
    (forall urlList,
        fst (scrape_scrape env (map PayloadFile urlList) [] false w) = Throw ->
        create env urlList w
        = (Ret [], snd (scrape_scrape env (map PayloadFile urlList) [] false w),
           [EvScrape (map PayloadFile urlList) [] false;
            EvLog Error "Failed to create paper entities." EmptyString]))
    /\ (forall paperEntities,
           dbInitializing env w = false ->
           fst (scrape_scrape env (map PayloadEntity paperEntities) [] false w)
           = Throw ->
           scrape env paperEntities None w
           = (Ret tt,
              snd (scrape_scrape env (map PayloadEntity paperEntities) [] false w),
              [EvLog Info ("Scraping " ++ count paperEntities ++ " paper(s)...")
                 EmptyString;
               EvScrape (map PayloadEntity paperEntities) [] false;
               EvLog Error "Failed to scrape metadata." EmptyString])).
Proof.
  intros w. split.
  - intros urls. unfold create, errorcatching.
    destruct (scrape_scrape env (map PayloadFile urls) [] false w)
      as [[ds|] w1] eqn:Es; [discriminate|]. intros _.
    erewrite bind_throw; [ | unfold Async.call; rewrite Es; reflexivity ].
    reflexivity.
  - intros ps Hinit. unfold scrape, errorcatching.
    destruct (scrape_scrape env (map PayloadEntity ps) [] false w)
      as [[ds|] w1] eqn:Es; [discriminate|]. intros _.
    erewrite bind_run;
      [ | unfold initializing, Async.read; rewrite Hinit; reflexivity | ].
    2:{ eapply bind_run; [reflexivity|].
        eapply bind_throw. unfold Async.call. rewrite Es. reflexivity. }
    reflexivity.
Qed.

End MoreRuns2.

Section PathsAndKinds.

Import PaperService.

Lemma list_no_slash_of_string (p : string) :
  JSString.includes "/" p = false ->
  Forall (fun c => Ascii.eqb c Path.slash = false) (list_ascii_of_string p).
Proof.
  induction p as [|c p IH]; intros H; [constructor|].
  rewrite includes_char in H. apply orb_false_iff in H. destruct H as [H1 H2].
  simpl. constructor; [|now apply IH].
  rewrite Ascii.eqb_sym. exact H1.
Qed.

Lemma string_no_slash_of_list (cs : list ascii) :
  Forall (fun c => Ascii.eqb c Path.slash = false) cs ->
  JSString.includes "/" (string_of_list_ascii cs) = false.
Proof.
  induction 1 as [|c cs Hc H IH]; [reflexivity|].
  cbn [string_of_list_ascii]. rewrite includes_char, IH.
  rewrite Ascii.eqb_sym. fold Path.slash. now rewrite Hc.
Qed.

Lemma dropSlashes_id (cs : list ascii) :
  Forall (fun c => Ascii.eqb c Path.slash = false) cs -> Path.dropSlashes cs = cs.
Proof. destruct 1 as [|c cs Hc H]; simpl; [reflexivity | now rewrite Hc]. Qed.

Lemma untilSlash_id (cs : list ascii) :
  Forall (fun c => Ascii.eqb c Path.slash = false) cs -> Path.untilSlash cs = cs.
Proof.
  induction 1 as [|c cs Hc H IH]; simpl; [reflexivity|]. now rewrite Hc, IH.
Qed.

Lemma basename_of_name (p : string) :
  JSString.includes "/" p = false -> Path.basename p = p.
Proof.
  intros H. apply list_no_slash_of_string in H.
  unfold Path.basename.
  rewrite dropSlashes_id by now apply Forall_rev.
  rewrite untilSlash_id by now apply Forall_rev.
  now rewrite rev_involutive, string_of_list_ascii_of_string.
Qed.

Lemma basename_has_no_slash (p : string) :
  JSString.includes "/" (Path.basename p) = false.
Proof.
  unfold Path.basename. apply string_no_slash_of_list.
  apply Forall_rev. apply untilSlash_no_slash.
Qed.

Lemma isAbsolute_needs_slash (p : string) :
  JSString.includes "/" p = false -> Path.isAbsolute p = false.
Proof.
  destruct p as [|c p]; [reflexivity|]. rewrite includes_char.
  intros H. apply orb_false_iff in H. destruct H as [H _].
  simpl. rewrite Ascii.eqb_sym. exact H.
Qed.

Lemma filter_filter {A} (f : A -> bool) (l : list A) :
  filter f (filter f l) = filter f l.
Proof.
  induction l as [|x l IH]; simpl; [reflexivity|].
  destruct (f x) eqn:E; simpl; [now rewrite E, IH | exact IH].
Qed.

(** X12.  The path normalization of [update] keeps a primary reference
    that is a plain file name, as managed files are, and keeps the
    supplementary references that are not absolute; normalizing twice is
    normalizing once, so a draft that went through [update] goes through
    it again unchanged. *)
Theorem normalizePaths_keeps_managed_names :
  forall d : PaperEntity.t,
    (JSString.includes "/" (PaperEntity.mainURL d) = false ->
     PaperEntity.mainURL (normalizePaths d) = PaperEntity.mainURL d)
    /\ (Forall (fun url => Path.isAbsolute url = false) (PaperEntity.supURLs d) ->
        PaperEntity.supURLs (normalizePaths d) = PaperEntity.supURLs d)
    /\ normalizePaths (normalizePaths d) = normalizePaths d.
Proof.
  intros d.
  destruct (normalizePaths_spec d) as (Hm & Hs & _ & _). cbv zeta in Hm, Hs.
  assert (Hname : JSString.includes "/" (PaperEntity.mainURL (normalizePaths d))
                  = false).
  { rewrite Hm. destruct (Path.isAbsolute (PaperEntity.mainURL d));
      [reflexivity | apply basename_has_no_slash]. }
  split; [|split].
  - intros H. rewrite Hm, (isAbsolute_needs_slash _ H). now apply basename_of_name.
  - intros H. rewrite Hs. apply forallb_filter_id.
    apply forallb_forall. intros u Hu. rewrite Forall_forall in H.
    now rewrite (H u Hu).
  - destruct (normalizePaths_spec (normalizePaths d)) as (Hm2 & Hs2 & _ & _).
    cbv zeta in Hm2, Hs2.
    rewrite (isAbsolute_needs_slash _ Hname), (basename_of_name _ Hname) in Hm2.
    rewrite Hs, filter_filter, <- Hs in Hs2.
    destruct (normalizePaths (normalizePaths d)) as [i1 t1 p1 m1 s1 g1 f1] eqn:E1.
    destruct (normalizePaths d) as [i2 t2 p2 m2 s2 g2 f2] eqn:E2.
    simpl in Hm2, Hs2. subst m1 s1.
    unfold normalizePaths in E1. simpl in E1.
    destruct (JSString.truthy m2 && Path.isAbsolute m2); simpl in E1;
      inversion E1; subst; reflexivity.
Qed.

Lemma sameId_sym_false (a b : Categorizer.t) :
  sameId a b = false -> sameId b a = false.
Proof. unfold sameId. now rewrite String.eqb_sym. Qed.

(** X14.  Tagging and filing do not interfere: applying a tag and a folder
    in either order gives the same draft; and two categorizers of the same
    kind with different identities both stay, each exactly once, whichever
    is applied first. *)
Theorem withCategorizer_kinds_independent :
  forall (c1 c2 : Categorizer.t) (d : PaperEntity.t),
    withCategorizer CategorizerType.PaperTag c1
      (withCategorizer CategorizerType.PaperFolder c2 d)
    = withCategorizer CategorizerType.PaperFolder c2
        (withCategorizer CategorizerType.PaperTag c1 d)
    /\ (sameId c1 c2 = false ->
        forall type,
          let both := membershipsIn type
                        (withCategorizer type c2 (withCategorizer type c1 d)) in
          membershipsOf c1 both = 1 /\ membershipsOf c2 both = 1).
Proof.
  intros c1 c2 d. split; [reflexivity|].
  intros Hne type. cbv zeta.
  destruct (membershipsIn_withCategorizer type c1 d) as (m1 & Hm1 & E1).
  destruct (membershipsIn_withCategorizer type c2 (withCategorizer type c1 d))
    as (m2 & Hm2 & E2).
  rewrite E2, E1.
  assert (H12 : sameId m1 c2 = false).
  { unfold sameId in *. apply String.eqb_eq in Hm1. rewrite Hm1. exact Hne. }
  assert (H21 : sameId m2 c1 = false).
  { unfold sameId in *. apply String.eqb_eq in Hm2. rewrite Hm2.
    now rewrite String.eqb_sym. }
  split.
  - rewrite others_app, !membershipsOf_app.
    unfold others at 2. simpl. rewrite H12. simpl.
    unfold membershipsOf at 2 3. simpl. rewrite Hm1, H21. simpl.
    assert (H0 : membershipsOf c1 (others c2 (others c1 (membershipsIn type d))) = 0).
    { unfold membershipsOf, others. clear E1 E2.
      generalize (membershipsIn type d) as ms. intros ms.
      induction ms as [|m ms IH]; simpl; [reflexivity|].
      destruct (sameId m c1) eqn:Ea; simpl; [exact IH|].
      destruct (sameId m c2) eqn:Eb; simpl; [exact IH|].
      rewrite Ea. exact IH. }
    fold (others c1 (membershipsIn type d)). rewrite H0. reflexivity.
  - rewrite membershipsOf_app, membershipsOf_others.
    unfold membershipsOf. simpl. now rewrite Hm2.
Qed.

End PathsAndKinds.

Section CreateTwice.

Context {W : Type} (env : Env W).
Import PaperService.

(** X16.  [createIntoCategorizer] runs the whole update pipeline twice:
    once inside [create], on the scraped drafts, and once more on what that
    returned, with the membership set; its result is the result of the
    second run, and the scraper is called once, before both. *)
Theorem createIntoCategorizer_updates_twice :
  forall (tagTruthy : bool) (urlList : list string) (categorizer : Categorizer.t)
         (type : CategorizerType.t) (w w1 : W) (scraped : list PaperEntity.t),
    dbInitializing env w = false ->
    scrape_scrape env (map PayloadFile urlList) [] false w = (Ret scraped, w1) ->
    let first := update env scraped w1 in
    exists created,
      outcomeOf first = Ret created
      /\ let second :=
           update env (map (intoCategorizer tagTruthy type categorizer) created)
             (worldOf first) in
         createIntoCategorizer env tagTruthy urlList categorizer type w
         = (outcomeOf second, worldOf second,
            EvScrape (map PayloadFile urlList) [] false
              :: traceOf first ++ traceOf second).
Proof.
  intros b urls c ty w w1 ds Hinit Es. cbv zeta.
  destruct (update_run env ds w1) as (d0s & wr & w2 & t1 & E1 & _).
  exists (keptOf wr). rewrite E1.
  unfold outcomeOf, worldOf, traceOf. cbn [fst snd]. split; [reflexivity|].
  destruct (update_run env (map (intoCategorizer b ty c) (keptOf wr)) w2)
    as (d0s' & wr' & w3 & t2 & E2 & _).
  rewrite E2. cbn [fst snd].
  unfold createIntoCategorizer, errorcatching.
  erewrite bind_run;
    [ | unfold initializing, Async.read; rewrite Hinit; reflexivity | ].
  2:{ eapply bind_run.
      - unfold create, errorcatching.
        erewrite bind_run;
          [ | unfold Async.call; rewrite Es; reflexivity | exact E1 ].
        reflexivity.
      - exact E2. }
  reflexivity.
Qed.

End CreateTwice.

(* ================================================================= *)
(** ** The window service *)

Section Windows.

Import WindowService.

Context {Win : Type} (browserWindows : Storage Win).

Lemma forEntries_done (f : string * Win -> list (Call Win))
  (entries : list (string * Win)) :
  forEntries (fun e => done (f e)) entries = done (flat_map f entries).
Proof.
  induction entries as [|e rest IH]; [reflexivity|].
  cbn [forEntries flat_map]. rewrite IH. reflexivity.
Qed.

Lemma flat_map_singleton {A B} (f : A -> B) (l : list A) :
  flat_map (fun x => [f x]) l = map f l.
Proof. induction l as [|x l IH]; simpl; [reflexivity | now rewrite IH]. Qed.

(** X17.  For an identifier the storage does not hold, [show] and [hide]
    do nothing, but the operations that call the window without testing
    the lookup throw: [close] and [forceClose] of any such window other
    than the main one, [minimize] and [maximize] of the main one. *)
Theorem unknown_window :
  forall (windowId : string),
    get browserWindows windowId = None ->
    show browserWindows windowId = done []
    /\ hide browserWindows windowId = done []
    /\ (windowId <> "rendererProcess" ->
        (forall darwin, close browserWindows darwin windowId = (Throw, []))
        /\ forceClose browserWindows windowId = (Throw, [])
        /\ minimize browserWindows windowId = done []
        /\ maximize browserWindows windowId = done [])
    /\ (windowId = "rendererProcess" ->
        minimize browserWindows windowId = (Throw, [])
        /\ maximize browserWindows windowId = (Throw, [])).
Proof.
  intros id Hget. unfold show, hide, close, forceClose, minimize, maximize.
  rewrite Hget. split; [reflexivity|]. split; [reflexivity|]. split.
  - intros Hne. apply String.eqb_neq in Hne. rewrite Hne.
    repeat split. intros []; reflexivity.
  - intros ->. simpl. split; reflexivity.
Qed.

(** X18.  Closing the main window hides every window on macOS and closes
    none, the application keeps running; elsewhere it closes every window,
    in the order of the storage, and then quits the application.
    [forceClose] of the main window closes every window on every platform
    and never quits.  None of these looks the main window up. *)
Theorem close_main_window :
  close browserWindows true "rendererProcess"
  = done (map (fun e => WinHide (snd e)) (all browserWindows))
  /\ close browserWindows false "rendererProcess"
     = done (map (fun e => WinClose (snd e)) (all browserWindows) ++ [AppQuit])
  /\ forceClose browserWindows "rendererProcess"
     = done (map (fun e => WinClose (snd e)) (all browserWindows)).
Proof.
  unfold close, forceClose. simpl String.eqb. cbv iota.
  rewrite !forEntries_done, !flat_map_singleton. repeat split.
Qed.

(** X19.  [minimize] acts on the main window only: it minimizes it and
    hides every other window of the storage, in order; for any other
    identifier it does nothing. *)
Theorem minimize_main_hides_others :
  forall (windowId : string),
    (windowId <> "rendererProcess" -> minimize browserWindows windowId = done [])
    /\ (forall win,
           windowId = "rendererProcess" ->
           get browserWindows windowId = Some win ->
           minimize browserWindows windowId
           = done (WinMinimize win
                     :: map (fun e => WinHide (snd e))
                          (filter (fun e => negb (fst e =? "rendererProcess")%string)
                             (all browserWindows)))).
Proof.
  intros id. unfold minimize. split.
  - intros Hne. apply String.eqb_neq in Hne. now rewrite Hne.
  - intros win -> Hget. rewrite Hget. simpl String.eqb. cbv iota.
    assert (E : forEntries
                  (fun e => if negb (fst e =? "rendererProcess")%string
                            then done [WinHide (snd e)] else done [])
                  (all browserWindows)
                = done (map (fun e => WinHide (snd e))
                          (filter (fun e => negb (fst e =? "rendererProcess")%string)
                             (all browserWindows)))).
    { induction (all browserWindows) as [|e rest IH]; [reflexivity|].
      cbn [forEntries filter]. rewrite IH.
      destruct (negb (fst e =? "rendererProcess")%string); reflexivity. }
    rewrite E. reflexivity.
Qed.

(** X20.  The close callback of the main window looks a window up under
    the name [mainRenderer].  When the storage holds its windows under
    other names, as [createMainRenderer] does with [rendererProcess], the
    callback saves the size, closes and destroys every stored window,
    closes the window it was given and then throws: the application is
    never asked to quit. *)
Theorem main_close_callback_never_quits :
  forall (darwin : bool) (win : Win) (winSize : option (Z * Z)),
    get browserWindows "mainRenderer" = None ->
    (forall id w, In (id, w) (all browserWindows) ->
                  get browserWindows id = Some w) ->
    mainCloseCallback browserWindows darwin win winSize
    = (Throw,
       match winSize with
       | Some wh => [SetWindowSize (fst wh) (snd wh)]
       | None => []
       end
       ++ flat_map (fun e => [WinClose (snd e); WinDestroy (snd e)])
            (all browserWindows)
       ++ [WinClose win])
    /\ ~ In AppQuit (snd (mainCloseCallback browserWindows darwin win winSize)).
Proof.
  intros darwin win winSize Hmain Hall.
  assert (Hloop : forEntries
                    (fun e =>
                       if negb (fst e =? "mainRenderer")%string
                       then andThen (done [WinClose (snd e)])
                              (callOn (get browserWindows (fst e)) WinDestroy)
                       else done [])
                    (all browserWindows)
                  = done (flat_map (fun e => [WinClose (snd e); WinDestroy (snd e)])
                            (all browserWindows))).
  { revert Hall. induction (all browserWindows) as [|[id w] rest IH]; intros Hall;
      [reflexivity|].
    cbn [forEntries flat_map fst snd].
    rewrite IH by (intros id' w' Hin; apply Hall; now right).
    assert (Hid : (id =? "mainRenderer")%string = false).
    { apply String.eqb_neq. intros ->.
      rewrite (Hall "mainRenderer" w (or_introl eq_refl)) in Hmain. discriminate. }
    rewrite Hid, (Hall id w (or_introl eq_refl)). reflexivity. }
  assert (E : mainCloseCallback browserWindows darwin win winSize
              = (Throw,
                 match winSize with
                 | Some wh => [SetWindowSize (fst wh) (snd wh)]
                 | None => []
                 end
                 ++ flat_map (fun e => [WinClose (snd e); WinDestroy (snd e)])
                      (all browserWindows)
                 ++ [WinClose win])).
  { unfold mainCloseCallback. rewrite Hloop, Hmain.
    destruct winSize; destruct darwin; unfold andThen, done, callOn; simpl;
      rewrite ?app_nil_r; reflexivity. }
  split; [exact E|]. rewrite E. cbn [snd]. intros Hin.
  apply in_app_or in Hin. destruct Hin as [Hin|Hin].
  - destruct winSize; simpl in Hin; [destruct Hin as [H|[]]; discriminate H | exact Hin].
  - apply in_app_or in Hin. destruct Hin as [Hin|Hin].
    + apply in_flat_map in Hin. destruct Hin as (e & _ & [H|[H|[]]]); discriminate H.
    + destruct Hin as [H|[]]. discriminate H.
Qed.

End Windows.

Section Links.

Import WindowService.

Lemma includes_empty (s : string) : JSString.includes EmptyString s = true.
Proof. destruct s; reflexivity. Qed.

(** X21.  Outside development mode no link opens inside the application:
    the window-open handler denies and hands the link to the system
    browser only when it starts with [http], dropping any other; the
    navigation listener prevents the navigation and hands every link to
    the system, whatever its scheme.  In development mode without a dev
    server URL every link is let through, since every string includes the
    empty string. *)
Theorem link_handlers :
  forall (Win : Type) (penv : ProcessEnv) (url : string),
    (NODE_ENV penv <> Some "development" ->
     fst (windowOpenHandler (Win := Win) penv url) = deny
     /\ snd (windowOpenHandler (Win := Win) penv url)
        = (if prefix "http" url then [OpenExternal url] else [])
     /\ willNavigate (Win := Win) penv url = [PreventDefault; OpenExternal url])
    /\ (NODE_ENV penv = Some "development" ->
        PaperFilterOptions.truthyStr (VITE_DEV_SERVER_URL penv) = None ->
        windowOpenHandler (Win := Win) penv url = (allow, [])
        /\ willNavigate (Win := Win) penv url = []).
Proof.
  intros Win penv url. split.
  - intros Hne.
    assert (Hd : devServerLink penv url = false).
    { unfold devServerLink. destruct (NODE_ENV penv) as [m|];
        [|apply andb_false_r].
      destruct (String.eqb_spec m "development") as [->|Hm];
        [now elim Hne | apply andb_false_r]. }
    unfold windowOpenHandler, willNavigate. rewrite Hd.
    destruct (prefix "http" url); repeat split.
  - intros Hdev Hvite.
    assert (Hd : devServerLink penv url = true).
    { unfold devServerLink. rewrite Hvite, Hdev, includes_empty. reflexivity. }
    unfold windowOpenHandler, willNavigate. rewrite Hd. split; reflexivity.
Qed.

End Links.

Section RenameAll.

Context {W : Type} (env : Env W).
Import PaperService.




End RenameAll.

(* ================================================================= *)
(** ** The added properties on concrete inputs *)

Section MoreOnDemo.

Import PaperService.

Lemma update_throws_only_on_invalid_date_witness :
  PaperFilterOptions.update PaperFilterOptions.formatString_spec 1613842215000
    (advancedSearch "addTime > [999999999999 DAYS]" None)
    PaperFilterOptions.fresh = None.
Proof.
  apply (proj2 (update_throws_only_on_invalid_date
                  PaperFilterOptions.formatString_spec 1613842215000
                  (advancedSearch "addTime > [999999999999 DAYS]" None)
                  PaperFilterOptions.fresh)).
  exists "addTime > [999999999999 DAYS]", "[999999999999 DAYS]", [].
  repeat split; vm_compute; reflexivity.
Defined.

Lemma operations_wait_for_store_witness :
  update Demo.env Demo.batch Demo.starting = (Ret [], Demo.starting, [])
  /\ renameAll Demo.env Demo.starting = (Ret tt, Demo.starting, []).
Proof.
  pose proof (operations_wait_for_store Demo.env Demo.starting eq_refl) as H.
  split.
  - exact (proj1 (proj2 (proj2 H)) Demo.batch).
  - exact (proj2 (proj2 (proj2 (proj2 (proj2 (proj2 (proj2 (proj2 H)))))))).
Defined.


(** Both non-empty URLs are tried, the second fails, the cache is left. *)
Example delete_on_stubborn_store :
  traceOf (delete stubbornEnv (Some ["A"]) None Demo.ready)
  = [EvLog Info "Deleting 1 paper(s)..." EmptyString; EvRealm;
     EvRepoDelete (Some ["A"]) None;
     EvFileRemoveFile "a.pdf"; EvFileRemoveFile "/tmp/b.pdf";
     EvLog Error "Failed to delete paper entities." EmptyString].
Proof. vm_compute. reflexivity. Qed.

Example delete_without_ids :
  traceOf (delete Demo.env None (Some [Demo.draft "A" "a.pdf" []]) Demo.ready)
  = [EvLog Info "Deleting undefined paper(s)..." EmptyString; EvRealm;
     EvRepoDelete None (Some [Demo.draft "A" "a.pdf" []]);
     EvCacheDelete ["A"]].
Proof. vm_compute. reflexivity. Qed.

Lemma deleteSup_removes_first_witness :
  deleteSup stubbornEnv (Demo.draft "A" "a.pdf" ["b.pdf"]) "/tmp/b.pdf" Demo.ready
  = (Ret tt, Demo.ready,
     [EvLog Info "Removing supplementary file..." "/tmp/b.pdf";
      EvFileRemoveFile "/tmp/b.pdf";
      EvLog Error "Failed to delete supplementary file." EmptyString]).
Proof.
  exact (proj2 (proj2 (deleteSup_removes_first stubbornEnv
                         (Demo.draft "A" "a.pdf" ["b.pdf"]) "/tmp/b.pdf"
                         Demo.ready)) eq_refl).
Defined.

Lemma update_of_nothing_witness :
  traceOf (update Demo.env [] Demo.ready)
  = [EvLog Info "Updating 0 paper(s)..." EmptyString; EvRealm; EvCacheUpdate []].
Proof.
  exact (proj2 (update_of_nothing Demo.env Demo.ready eq_refl)).
Defined.

Lemma normalizePaths_keeps_managed_names_witness :
  PaperEntity.mainURL (normalizePaths (Demo.draft "A" "a.pdf" ["s.zip"])) = "a.pdf"
  /\ PaperEntity.supURLs (normalizePaths (Demo.draft "A" "a.pdf" ["s.zip"]))
     = ["s.zip"].
Proof.
  pose proof (normalizePaths_keeps_managed_names
                (Demo.draft "A" "a.pdf" ["s.zip"])) as H.
  split.
  - apply (proj1 H). reflexivity.
  - apply (proj1 (proj2 H)). repeat constructor.
Defined.

Lemma migrate_reports_what_it_read_witness :
  migrateLocaltoCloud Demo.env oneLocalEntity Demo.starting
  = (Ret tt, Demo.starting,
     [EvLog Info "Migrated 1 paper(s) to cloud database." EmptyString]).
Proof.
  exact (proj2 (proj2 (migrate_reports_what_it_read Demo.env oneLocalEntity
                         Demo.starting Demo.starting
                         [Demo.draft "L" EmptyString []] [] eq_refl))
           eq_refl).
Defined.

Lemma withCategorizer_kinds_independent_witness :
  let red := Categorizer.mk "1" "red" "r" in
  let blue := Categorizer.mk "2" "blue" "b" in
  let d := PaperEntity.mk "p" "P" EmptyString EmptyString [] [red] [] in
  let both := membershipsIn CategorizerType.PaperTag
                (withCategorizer CategorizerType.PaperTag blue
                   (withCategorizer CategorizerType.PaperTag red d)) in
  membershipsOf red both = 1 /\ membershipsOf blue both = 1.
Proof.
  cbv zeta.
  apply (proj2 (withCategorizer_kinds_independent
                  (Categorizer.mk "1" "red" "r") (Categorizer.mk "2" "blue" "b")
                  (PaperEntity.mk "p" "P" EmptyString EmptyString []
                     [Categorizer.mk "1" "red" "r"] []))
           eq_refl CategorizerType.PaperTag).
Defined.

Lemma scraper_failure_stops_the_operation_witness :
  create stubbornEnv ["/tmp/a.pdf"] Demo.ready
  = (Ret [], Demo.ready,
     [EvScrape [PayloadFile "/tmp/a.pdf"] [] false;
      EvLog Error "Failed to create paper entities." EmptyString])
  /\ scrape stubbornEnv [Demo.draft "A" "a.pdf" []] None Demo.ready
     = (Ret tt, Demo.ready,
        [EvLog Info "Scraping 1 paper(s)..." EmptyString;
         EvScrape [PayloadEntity (Demo.draft "A" "a.pdf" [])] [] false;
         EvLog Error "Failed to scrape metadata." EmptyString]).
Proof.
  pose proof (scraper_failure_stops_the_operation stubbornEnv Demo.ready) as H.
  split.
  - exact (proj1 H ["/tmp/a.pdf"] eq_refl).
  - exact (proj2 H [Demo.draft "A" "a.pdf" []] eq_refl eq_refl).
Defined.

Lemma createIntoCategorizer_updates_twice_witness :
  exists created,
    outcomeOf (update Demo.env [Demo.entityOf (PayloadFile "/tmp/a.pdf")] Demo.ready)
    = Ret created
    /\ List.length
         (writesOf
            (traceOf
               (createIntoCategorizer Demo.env true ["/tmp/a.pdf"]
                  (Categorizer.mk "9" "thesis" "red")
                  CategorizerType.PaperTag Demo.ready))) = 2.
Proof.
  destruct (createIntoCategorizer_updates_twice Demo.env true ["/tmp/a.pdf"]
              (Categorizer.mk "9" "thesis" "red") CategorizerType.PaperTag
              Demo.ready Demo.ready [Demo.entityOf (PayloadFile "/tmp/a.pdf")]
              eq_refl eq_refl) as (created & Hc & Hrun).
  exists created. split; [exact Hc|].
  rewrite Hrun. clear Hrun.
  vm_compute in Hc. inversion Hc. subst created.
  vm_compute. reflexivity.
Defined.

Import WindowService.

Lemma unknown_window_witness :
  show twoWindows "ghost" = done []
  /\ (forall darwin, close twoWindows darwin "ghost" = (Throw, [])).
Proof.
  pose proof (unknown_window twoWindows "ghost" eq_refl) as H.
  split; [exact (proj1 H)|].
  refine (proj1 (proj1 (proj2 (proj2 H)) _)). discriminate.
Defined.

Lemma minimize_main_hides_others_witness :
  minimize twoWindows "rendererProcess" = done [WinMinimize 1; WinHide 2].
Proof.
  exact (proj2 (minimize_main_hides_others twoWindows "rendererProcess")
           1 eq_refl eq_refl).
Defined.

Lemma main_close_callback_never_quits_witness :
  mainCloseCallback twoWindows false 1 (Some (800, 600)%Z)
  = (Throw,
     [SetWindowSize 800 600; WinClose 1; WinDestroy 1; WinClose 2; WinDestroy 2;
      WinClose 1]).
Proof.
  refine (proj1 (main_close_callback_never_quits twoWindows false 1
                   (Some (800, 600)%Z) eq_refl _)).
  intros id w [H|[H|[]]]; inversion H; reflexivity.
Defined.

Lemma link_handlers_witness :
  windowOpenHandler (Win := nat) production "mailto:someone@example.org"
  = (deny, [])
  /\ willNavigate (Win := nat) production "mailto:someone@example.org"
     = [PreventDefault; OpenExternal "mailto:someone@example.org"]
  /\ windowOpenHandler (Win := nat) developmentWithoutServer "https://example.org"
     = (allow, []).
Proof.
  pose proof (link_handlers nat production "mailto:someone@example.org") as H1.
  pose proof (link_handlers nat developmentWithoutServer "https://example.org") as H2.
  destruct (proj1 H1) as (Ha & Hb & Hc); [discriminate|].
  split; [|split].
  - apply injective_projections; [exact Ha | exact Hb].
  - exact Hc.
  - exact (proj1 (proj2 H2 eq_refl eq_refl)).
Defined.


End MoreOnDemo.
